(** * Premium WhatsApp AI bot: request pipeline, response cache and HTTP handlers

    A shallow embedding of [index.js] and [config.js].

    Conventions of the embedding.
    - A JavaScript string is a Rocq [string]; one character of the Rocq
      string is one UTF-16 code unit, so the development covers the strings
      whose code units are below 256.  The literals of [config.js] that
      carry an emoji are kept as their bytes: they are only compared and
      passed around, never measured.
    - [Date.now()] is a [Z], in seconds.
    - The module state ([whatsappClient], [botStatus], [connectedUsers],
      [cache]) is the record [World], threaded through a state, exception
      and trace monad [M].  Everything a handler does to the outside is an
      [Event] of the trace; what the outside answers (the completion API,
      the chat client) is read from an [Env] given to the handler.
    - An [async] handler runs from its first statement to its last without
      another handler in between: [await] is sequencing. *)

From Stdlib Require Import ZArith NArith Ascii String List Lia.
From stdpp Require Import base option gmap strings.

Import ListNotations.
Local Open Scope string_scope.
Local Open Scope Z_scope.

(** ** JavaScript values and strings *)

(** The values a JSON request body can hold in a field.  [JUndefined] is an
    absent field, [JObject] a JSON object whose contents are never read. *)
Inductive JsValue : Type :=
| JUndefined
| JNull
| JBool (b : bool)
| JNum (n : Z)
| JStr (s : string)
| JObject.

(** [s === ''] as a boolean. *)
Definition is_empty (s : string) : bool :=
  match s with
  | EmptyString => true
  | String _ _ => false
  end.

(** ToBoolean: what [if (v)] and [!v] look at. *)
Definition truthy (v : JsValue) : bool :=
  match v with
  | JUndefined | JNull => false
  | JBool b => b
  | JNum n => negb (n =? 0)
  | JStr s => negb (is_empty s)
  | JObject => true
  end.

(** [typeof v === 'string'] *)
Definition is_string (v : JsValue) : bool :=
  match v with
  | JStr _ => true
  | _ => false
  end.

(** [a || b] *)
Definition js_or (a b : JsValue) : JsValue := if truthy a then a else b.

(** [s.includes(c)] for a one-character needle. *)
Fixpoint includes (c : ascii) (s : string) : bool :=
  match s with
  | EmptyString => false
  | String d s' => if Ascii.eqb d c then true else includes c s'
  end.

(** [s.substring(0, n)] and [s.slice(0, n)] for [0 <= n]. *)
Definition prefix (n : nat) (s : string) : string := substring 0 n s.

(** A thrown [Error]: its [message] and, for transport errors, its [code]. *)
Record JsError : Type := mkError {
  err_message : string;
  err_code : option string
}.

Definition Error (msg : string) : JsError := mkError msg None.

(** ** Buffer.from(message).toString('base64') *)

Module Base64.

(** UTF-8 bytes of a string of code units below 256. *)
Fixpoint utf8 (s : string) : list N :=
  match s with
  | EmptyString => []
  | String c s' =>
      let n := N_of_ascii c in
      if (n <? 128)%N then n :: utf8 s'
      else (192 + N.shiftr n 6)%N :: (128 + N.land n 63)%N :: utf8 s'
  end.

Definition alphabet : string :=
  "ABCDEFGHIJKLMNOPQRSTUVWXYZabcdefghijklmnopqrstuvwxyz0123456789+/".

Definition digit (n : N) : ascii :=
  match String.get (N.to_nat n) alphabet with
  | Some c => c
  | None => "="%char
  end.

Fixpoint encode (bs : list N) : string :=
  match bs with
  | [] => ""
  | [a] =>
      String (digit (N.shiftr a 2))
        (String (digit (N.shiftl (N.land a 3) 4)) "==")
  | [a; b] =>
      String (digit (N.shiftr a 2))
        (String (digit (N.lor (N.shiftl (N.land a 3) 4) (N.shiftr b 4)))
           (String (digit (N.shiftl (N.land b 15) 2)) "="))
  | a :: b :: c :: rest =>
      String (digit (N.shiftr a 2))
        (String (digit (N.lor (N.shiftl (N.land a 3) 4) (N.shiftr b 4)))
           (String (digit (N.lor (N.shiftl (N.land b 15) 2) (N.shiftr c 6)))
              (String (digit (N.land c 63)) (encode rest))))
  end.

Definition of_string (s : string) : string := encode (utf8 s).

End Base64.

(** [const cacheKey = `ai_${platform}_${Buffer.from(message).toString('base64').slice(0, 20)}`] *)
Definition cacheKey (platform message : string) : string :=
  "ai_" ++ platform ++ "_" ++ prefix 20 (Base64.of_string message).


(** ** Configuration ([config.js]) *)

Record SystemPrompts : Type := {
  prompt_whatsapp : string;
  prompt_web : string;
  prompt_default : string
}.

Record AIConfig : Type := {
  API_URL : string;
  MODEL : string;
  MAX_TOKENS : Z;
  TIMEOUT : Z;
  SYSTEM_PROMPTS : SystemPrompts
}.

Record CacheConfig : Type := {
  TTL : Z;
  CHECK_PERIOD : Z
}.

Record Features : Type := {
  ENABLE_LOGGING : bool;
  ENABLE_CACHING : bool;
  ENABLE_RATE_LIMITING : bool;
  ENABLE_CORS : bool;
  ENABLE_COMPRESSION : bool;
  ENABLE_SECURITY_HEADERS : bool
}.

Record Messages : Type := {
  BOT_READY : string;
  ERROR_GENERIC : string;
  ERROR_AI_TIMEOUT : string;
  ERROR_RATE_LIMIT : string;
  WELCOME : string
}.

Record Config : Type := {
  AI : AIConfig;
  CACHE : CacheConfig;
  FEATURES : Features;
  MESSAGES : Messages
}.

(** The values [config.js] exports when no environment variable is set. *)
Definition config : Config := {|
  AI := {|
    API_URL := "https://api.puter.com/v2/chat/completions";
    MODEL := "gpt-4o-mini";
    MAX_TOKENS := 1000;
    TIMEOUT := 30000;
    SYSTEM_PROMPTS := {|
      prompt_whatsapp := "You are a friendly, helpful WhatsApp AI assistant. Keep responses conversational and under 500 characters for WhatsApp compatibility.";
      prompt_web := "You are a smart, professional AI assistant. Provide detailed and helpful responses.";
      prompt_default := "You are a helpful AI assistant."
    |}
  |};
  CACHE := {| TTL := 300; CHECK_PERIOD := 600 |};
  FEATURES := {|
    ENABLE_LOGGING := true;
    ENABLE_CACHING := true;
    ENABLE_RATE_LIMITING := true;
    ENABLE_CORS := true;
    ENABLE_COMPRESSION := true;
    ENABLE_SECURITY_HEADERS := true
  |};
  MESSAGES := {|
    BOT_READY := "🤖 Premium AI Bot is now online!";
    ERROR_GENERIC := "Sorry, something went wrong. Please try again! 🙏";
    ERROR_AI_TIMEOUT := "AI response timeout. Please try with a shorter message.";
    ERROR_RATE_LIMIT := "You're sending messages too fast. Please wait a moment.";
    WELCOME := "Welcome to Premium AI! How can I help you today? 😊"
  |}
|}.

(** [config.AI.SYSTEM_PROMPTS[platform] || config.AI.SYSTEM_PROMPTS.default];
    the three prompts of [config.js] are non-empty, so [||] only falls to the
    default on a platform that is not a property of the table. *)
Definition systemPromptFor (p : SystemPrompts) (platform : string) : string :=
  let own :=
    if String.eqb platform "whatsapp" then JStr (prompt_whatsapp p)
    else if String.eqb platform "web" then JStr (prompt_web p)
    else if String.eqb platform "default" then JStr (prompt_default p)
    else JUndefined in
  match js_or own (JStr (prompt_default p)) with
  | JStr s => s
  | _ => prompt_default p
  end.

(** ** The response cache *)

Module NodeCache.

(** The cache is an instance of the [node-cache] package, which [index.js]
    constructs, calls and exports; the package's code is not among the
    sources, so its operations are taken from the specification's
    ResponseCache and CacheEntry. *)

(** Modelled from the spec: CacheEntry, the [value] (the AI reply text) and
    [expiresAt], "computed at insertion as insertTime + TTL"; the [key] is
    the key of the map that holds the entry. *)
Record CacheEntry : Type := {
  value : string;
  expiresAt : Z
}.

(** Modelled from the spec: the state of a ResponseCache, its entries and
    the "counters for hits/misses", with the two options [index.js]
    constructs it with. *)
Record t : Type := {
  stdTTL : Z;
  checkperiod : Z;
  data : gmap string CacheEntry;
  hits : nat;
  misses : nat
}.

(** Modelled from the spec: the result of [stats()], "{hits, misses, size}". *)
Record Stats : Type := {
  stat_hits : nat;
  stat_misses : nat;
  stat_size : nat
}.

(** Modelled from the spec: [new NodeCache({ stdTTL, checkperiod })], an
    empty cache at process start. *)
Definition new (ttl period : Z) : t :=
  {| stdTTL := ttl; checkperiod := period; data := ∅; hits := 0; misses := 0 |}.

(** Modelled from the spec: "an entry is visible to lookups only while
    now < expiresAt". *)
Definition live (now : Z) (e : CacheEntry) : bool := now <? expiresAt e.

(** Modelled from the spec: what [get(key)] returns, "absent if key never
    set or entry's TTL has elapsed". *)
Definition peek (k : string) (now : Z) (c : t) : option string :=
  match data c !! k with
  | Some e => if live now e then Some (value e) else None
  | None => None
  end.

(** Modelled from the spec: [get(key) -> value | absent], counting a hit
    when it returns a value and a miss when it returns absent. *)
Definition get (k : string) (now : Z) (c : t) : option string * t :=
  match peek k now c with
  | Some v =>
      (Some v,
       {| stdTTL := stdTTL c; checkperiod := checkperiod c; data := data c;
          hits := S (hits c); misses := misses c |})
  | None =>
      (None,
       {| stdTTL := stdTTL c; checkperiod := checkperiod c; data := data c;
          hits := hits c; misses := S (misses c) |})
  end.

(** Modelled from the spec: [set(key, value)], "inserts/overwrites; resets
    expiry to now + TTL". *)
Definition set (k v : string) (now : Z) (c : t) : t :=
  {| stdTTL := stdTTL c; checkperiod := checkperiod c;
     data := <[k := {| value := v; expiresAt := now + stdTTL c |}]> (data c);
     hits := hits c; misses := misses c |}.

(** Modelled from the spec: [flushAll()], "removes all entries".  The two
    counters go with the entries: the [node-cache] package reinitialises its
    statistics in [flushAll], so that after POST /api/cache/clear
    GET /api/analytics reports 0 hits and 0 misses. *)
Definition flushAll (c : t) : t :=
  {| stdTTL := stdTTL c; checkperiod := checkperiod c; data := ∅;
     hits := 0; misses := 0 |}.

(** Modelled from the spec: the "background sweep" that "purges expired
    entries at checkPeriod granularity". *)
Definition sweep (now : Z) (c : t) : t :=
  {| stdTTL := stdTTL c; checkperiod := checkperiod c;
     data := filter (fun kv => live now kv.2 = true) (data c);
     hits := hits c; misses := misses c |}.

(** Modelled from the spec: [stats() -> {hits, misses, size}], which
    [index.js] calls as [cache.getStats()]. *)
Definition getStats (c : t) : Stats :=
  {| stat_hits := hits c; stat_misses := misses c; stat_size := size (data c) |}.

(** The operations a client of the cache can perform, with the time at
    which each happens. *)
Inductive Op : Type :=
| OpGet (k : string) (now : Z)
| OpSet (k v : string) (now : Z)
| OpFlushAll
| OpSweep (now : Z).

Definition apply (c : t) (o : Op) : t :=
  match o with
  | OpGet k now => (get k now c).2
  | OpSet k v now => set k v now c
  | OpFlushAll => flushAll c
  | OpSweep now => sweep now c
  end.

Definition run (c : t) (ops : list Op) : t := fold_left apply ops c.

(** Every entry under [k] expires by [deadline]. *)
Definition expires_by (k : string) (deadline : Z) (c : t) : Prop :=
  forall e, data c !! k = Some e -> expiresAt e <= deadline.

(** [o] is a [set] on key [k]. *)
Definition sets_key (k : string) (o : Op) : bool :=
  match o with
  | OpSet k' _ _ => String.eqb k' k
  | _ => false
  end.

(** [o] is [flushAll]. *)
Definition is_flush (o : Op) : bool :=
  match o with
  | OpFlushAll => true
  | _ => false
  end.

(** [o], done no later than [before], leaves an entry under [k] that is
    still live at [before] where it is: it is a lookup, a [set] on another
    key, or a sweep no later than [before]; not a [flushAll] and not a [set]
    on [k]. *)
Definition keeps (k : string) (before : Z) (o : Op) : bool :=
  match o with
  | OpGet _ _ => true
  | OpSet k' _ _ => negb (String.eqb k' k)
  | OpFlushAll => false
  | OpSweep now => now <=? before
  end.

End NodeCache.

(** ** Module state of [index.js] *)

Inductive BotStatus : Type :=
| initializing
| waiting_for_qr
| authenticated
| ready
| disconnected.

Definition BotStatus_eqb (a b : BotStatus) : bool :=
  match a, b with
  | initializing, initializing
  | waiting_for_qr, waiting_for_qr
  | authenticated, authenticated
  | ready, ready
  | disconnected, disconnected => true
  | _, _ => false
  end.

(** [whatsappClient] is [false] while the variable is [null]. *)
Record World : Type := {
  whatsappClient : bool;
  botStatus : BotStatus;
  connectedUsers : gset string;
  cache : NodeCache.t
}.

(** The state when the module has been loaded with configuration [cfg]. *)
Definition initial_world (cfg : Config) : World := {|
  whatsappClient := false;
  botStatus := initializing;
  connectedUsers := ∅;
  cache := NodeCache.new (TTL (CACHE cfg)) (CHECK_PERIOD (CACHE cfg))
|}.

(** Assignments to one of the four variables. *)
Definition with_client (w : World) (b : bool) : World :=
  {| whatsappClient := b; botStatus := botStatus w;
     connectedUsers := connectedUsers w; cache := cache w |}.

Definition with_status (w : World) (st : BotStatus) : World :=
  {| whatsappClient := whatsappClient w; botStatus := st;
     connectedUsers := connectedUsers w; cache := cache w |}.

Definition with_users (w : World) (u : gset string) : World :=
  {| whatsappClient := whatsappClient w; botStatus := botStatus w;
     connectedUsers := u; cache := cache w |}.

Definition with_cache (w : World) (c : NodeCache.t) : World :=
  {| whatsappClient := whatsappClient w; botStatus := botStatus w;
     connectedUsers := connectedUsers w; cache := c |}.

(** ** Effects *)

Inductive Level : Type := info | warn | error.

(** A JSON object written to a response: its fields in order. *)
Definition Body : Type := list (string * JsValue).

(** [body.field], [JUndefined] when the object has no such field. *)
Fixpoint field (name : string) (b : Body) : JsValue :=
  match b with
  | [] => JUndefined
  | (k, v) :: rest => if String.eqb k name then v else field name rest
  end.

Inductive Event : Type :=
| EAxiosPost (url model systemPrompt message : string)
    (* axios.post(config.AI.API_URL, {model, messages: [system, user]}, ...) *)
| ELog (lvl : Level) (args : list string)
    (* logger.info / logger.warn / logger.error *)
| EReply (sender text : string)
    (* msg.reply(text) on a message from sender *)
| ESendMessage (chatId : string) (content : JsValue)
    (* whatsappClient.sendMessage(chatId, content) *)
| ELogBody (lvl : Level) (text : string) (meta : list (string * JsValue))
    (* logger.info(text, req.body) *)
| EResponse (status : Z) (body : list (string * JsValue)).
    (* res.status(status).json(body); res.json(body) is status 200 *)

Definition is_axios (e : Event) : bool :=
  match e with EAxiosPost _ _ _ _ => true | _ => false end.
Definition is_reply (e : Event) : bool :=
  match e with EReply _ _ => true | _ => false end.
Definition is_send (e : Event) : bool :=
  match e with ESendMessage _ _ => true | _ => false end.
Definition is_response (e : Event) : bool :=
  match e with EResponse _ _ => true | _ => false end.

(** How often the completion client was invoked in a trace. *)
Definition completion_calls (tr : list Event) : nat :=
  length (List.filter is_axios tr).

(** The responses written in a trace, in order. *)
Fixpoint responses (tr : list Event) : list (Z * Body) :=
  match tr with
  | [] => []
  | EResponse st b :: rest => (st, b) :: responses rest
  | _ :: rest => responses rest
  end.

(** The arguments of the log calls of one level, in order. *)
Fixpoint logged (lvl : Level) (tr : list Event) : list (list string) :=
  match tr with
  | [] => []
  | ELog error args :: rest =>
      match lvl with error => args :: logged lvl rest | _ => logged lvl rest end
  | ELog info args :: rest =>
      match lvl with info => args :: logged lvl rest | _ => logged lvl rest end
  | ELog warn args :: rest =>
      match lvl with warn => args :: logged lvl rest | _ => logged lvl rest end
  | _ :: rest => logged lvl rest
  end.

(** What the completion API answers to one [axios.post]: the text at
    [response.data.choices[0].message.content], or the error thrown by the
    call or by reading that path. *)
Inductive AxiosOutcome : Type :=
| AxiosOk (content : string)
| AxiosFail (e : JsError).

(** What the outside world answers during one run of a handler. *)
Record Env : Type := {
  env_now : Z;                     (* Date.now() at cache.get *)
  env_axios : AxiosOutcome;        (* the answer to axios.post *)
  env_done : Z;                    (* Date.now() at cache.set *)
  env_reply : option JsError;      (* msg.reply(aiReply): the error it throws *)
  env_reply_error : option JsError;(* msg.reply(ERROR_GENERIC) in the catch *)
  env_send : option JsError;       (* whatsappClient.sendMessage *)
  env_timestamp : string;          (* new Date().toISOString() *)
  env_uptime : Z                   (* process.uptime() *)
}.

(** State of one handler run: the module state and the trace so far. *)
Record St : Type := {
  world : World;
  trace : list Event
}.

(** How a piece of code ends: with a value, or with a thrown error. *)
Inductive Outcome (A : Type) : Type :=
| Returned (a : A)
| Thrown (e : JsError).
Arguments Returned {A} a.
Arguments Thrown {A} e.

(** A piece of handler code: from a state to how it ended and the state
    it left. *)
Definition M (A : Type) : Type := St -> Outcome A * St.

Definition ret {A} (a : A) : M A := fun s => (Returned a, s).

Definition bind {A B} (m : M A) (k : A -> M B) : M B :=
  fun s =>
    match m s with
    | (Returned a, s') => k a s'
    | (Thrown e, s') => (Thrown e, s')
    end.

Definition throw {A} (e : JsError) : M A := fun s => (Thrown e, s).

(** [try { m } catch (e) { h e }] *)
Definition try_catch {A} (m : M A) (h : JsError -> M A) : M A :=
  fun s =>
    match m s with
    | (Returned a, s') => (Returned a, s')
    | (Thrown e, s') => h e s'
    end.

Declare Scope js_scope.
Delimit Scope js_scope with js.
Notation "x <- m ;; k" := (bind m (fun x => k))
  (at level 100, m at next level, right associativity) : js_scope.
Notation "m ;;; k" := (bind m (fun _ => k))
  (at level 100, right associativity) : js_scope.
Local Open Scope js_scope.

Definition emit (e : Event) : M unit :=
  fun s => (Returned tt, {| world := world s; trace := trace s ++ [e] |}).

Definition get_world : M World := fun s => (Returned (world s), s).

Definition put_world (w : World) : M unit :=
  fun s => (Returned tt, {| world := w; trace := trace s |}).

(** A call into the outside that either succeeds or throws. *)
Definition external (e : Event) (answer : option JsError) : M unit :=
  emit e ;;;
  match answer with
  | None => ret tt
  | Some err => throw err
  end.

Definition log (lvl : Level) (args : list string) : M unit := emit (ELog lvl args).

(** [cache.get(key)] at time [now] *)
Definition cache_get (key : string) (now : Z) : M (option string) :=
  w <- get_world ;;
  put_world (with_cache w (NodeCache.get key now (cache w)).2) ;;;
  ret (NodeCache.get key now (cache w)).1.

(** [cache.set(key, value)] at time [now] *)
Definition cache_set (key value : string) (now : Z) : M unit :=
  w <- get_world ;;
  put_world (with_cache w (NodeCache.set key value now (cache w))).

(** [cache.flushAll()] *)
Definition cache_flushAll : M unit :=
  w <- get_world ;;
  put_world (with_cache w (NodeCache.flushAll (cache w))).

(** [connectedUsers.add(id)] *)
Definition connectedUsers_add (id : string) : M unit :=
  w <- get_world ;;
  put_world (with_users w ({[id]} ∪ connectedUsers w)).

(** [res.status(status).json(body)]: writing a second response throws
    ERR_HTTP_HEADERS_SENT and writes nothing. *)
Definition respond (status : Z) (body : Body) : M unit :=
  fun s =>
    if existsb is_response (trace s)
    then (Thrown (mkError "Cannot set headers after they are sent to the client"
                    (Some "ERR_HTTP_HEADERS_SENT")), s)
    else emit (EResponse status body) s.

(** Run a handler from module state [w]: its outcome, the module state
    afterwards and what it did. *)
Definition run {A} (m : M A) (w : World) : Outcome A * World * list Event :=
  let '(o, s) := m {| world := w; trace := [] |} in (o, world s, trace s).

(** ** getAIResponse *)

Section Handlers.

Variable cfg : Config.

(** The [try] block of [getAIResponse] with its [catch]. *)
Definition askCompletion (key message platform : string) (env : Env) : M string :=
  try_catch
    (let systemPrompt := systemPromptFor (SYSTEM_PROMPTS (AI cfg)) platform in
     emit (EAxiosPost (API_URL (AI cfg)) (MODEL (AI cfg)) systemPrompt message) ;;;
     aiReply <- match env_axios env with
                | AxiosOk content => ret content
                | AxiosFail e => throw e
                end ;;
     (if ENABLE_CACHING (FEATURES cfg)
      then cache_set key aiReply (env_done env)
      else ret tt) ;;;
     ret aiReply)
    (fun err =>
       log error ["AI API Error:"; err_message err] ;;;
       if bool_decide (err_code err = Some "ECONNABORTED")
       then throw (Error (ERROR_AI_TIMEOUT (MESSAGES cfg)))
       else throw (Error (ERROR_GENERIC (MESSAGES cfg)))).

(** [async function getAIResponse(message, platform = 'whatsapp')]; both
    callers pass the platform. *)
Definition getAIResponse (message platform : string) (env : Env) : M string :=
  let key := cacheKey platform message in
  if ENABLE_CACHING (FEATURES cfg) then
    cached <- cache_get key (env_now env) ;;
    match cached with
    | Some v =>
        if negb (is_empty v)
        then log info ["Cache hit for AI response"] ;;; ret v
        else askCompletion key message platform env
    | None => askCompletion key message platform env
    end
  else askCompletion key message platform env.

(** ** The chat client's events *)

(** The fields of a chat-client message that the handler reads. *)
Record Message : Type := {
  msg_from : string;
  msg_fromMe : bool;
  msg_body : string
}.

(** [setupWhatsAppClient]: [whatsappClient = new Client(...)]. *)
Definition setupWhatsAppClient : M unit :=
  w <- get_world ;;
  put_world (with_client w true).

Definition set_botStatus (st : BotStatus) : M unit :=
  w <- get_world ;;
  put_world (with_status w st).

(** [whatsappClient.on("qr", ...)] *)
Definition onQr : M unit :=
  set_botStatus waiting_for_qr ;;;
  log info ["QR Code generated, waiting for scan"].

(** [whatsappClient.on("ready", ...)] *)
Definition onReady : M unit :=
  set_botStatus ready ;;;
  log info [BOT_READY (MESSAGES cfg)].

(** [whatsappClient.on("authenticated", ...)] *)
Definition onAuthenticated : M unit :=
  set_botStatus authenticated ;;;
  log info ["WhatsApp authentication successful"].

(** [whatsappClient.on("disconnected", ...)] *)
Definition onDisconnected (reason : string) : M unit :=
  set_botStatus disconnected ;;;
  log warn ["WhatsApp disconnected: " ++ reason].

(** [whatsappClient.on("message", async (msg) => ...)] *)
Definition onMessage (msg : Message) (env : Env) : M unit :=
  try_catch
    (if String.eqb (msg_from msg) "status@broadcast" || msg_fromMe msg
     then ret tt
     else
       connectedUsers_add (msg_from msg) ;;;
       log info ["📩 Message from " ++ msg_from msg ++ ": "
                 ++ prefix 50 (msg_body msg) ++ "..."] ;;;
       aiReply <- getAIResponse (msg_body msg) "whatsapp" env ;;
       external (EReply (msg_from msg) aiReply) (env_reply env) ;;;
       log info ["🤖 AI replied to " ++ msg_from msg ++ ": "
                 ++ prefix 50 aiReply ++ "..."])
    (fun err =>
       log error ["Error processing message from " ++ msg_from msg ++ ":";
                  err_message err] ;;;
       try_catch
         (external (EReply (msg_from msg) (ERROR_GENERIC (MESSAGES cfg)))
            (env_reply_error env))
         (fun replyError =>
            log error ["Failed to send error message:"; err_message replyError])).

(** ** The HTTP routes *)

(** The string held by a value known to be one. *)
Definition str_of (v : JsValue) : string :=
  match v with
  | JStr s => s
  | _ => ""
  end.

Definition botStatus_name (st : BotStatus) : string :=
  match st with
  | initializing => "initializing"
  | waiting_for_qr => "waiting_for_qr"
  | authenticated => "authenticated"
  | ready => "ready"
  | disconnected => "disconnected"
  end.

(** [app.post('/api/chat', ...)]; [body] is [req.body]. *)
Definition postChat (body : Body) (env : Env) : M unit :=
  try_catch
    (let message := field "message" body in
     let sessionId := field "sessionId" body in
     if negb (truthy message) || negb (is_string message) then
       respond 400 [("error", JStr "Message is required and must be a string")]
     else
       let text := str_of message in
       if (2000 <? String.length text)%nat then
         respond 400
           [("error", JStr "Message too long. Maximum 2000 characters allowed.")]
       else
         log info ["🌐 Web chat message: " ++ prefix 50 text ++ "..."] ;;;
         aiReply <- getAIResponse text "web" env ;;
         respond 200 [("success", JBool true);
                      ("reply", JStr aiReply);
                      ("timestamp", JStr (env_timestamp env));
                      ("sessionId", js_or sessionId (JStr "anonymous"))] ;;;
         log info ["🌐 Web AI replied: " ++ prefix 50 aiReply ++ "..."])
    (fun err =>
       log error ["Chat API error:"; err_message err] ;;;
       respond 500 [("success", JBool false);
                    ("error", js_or (JStr (err_message err))
                                (JStr (ERROR_GENERIC (MESSAGES cfg))));
                    ("timestamp", JStr (env_timestamp env))]).

(** [app.post('/api/webhook', ...)] *)
Definition postWebhook (body : Body) : M unit :=
  try_catch
    (emit (ELogBody info "Webhook received:" body) ;;;
     respond 200 [("success", JBool true);
                  ("message", JStr "Webhook processed successfully")])
    (fun err =>
       log error ["Webhook error:"; err_message err] ;;;
       respond 500 [("success", JBool false); ("error", JStr (err_message err))]).

(** [number.includes('@') ? number : `${number}@c.us`] *)
Definition formatNumber (number : string) : string :=
  if includes "@" number then number else number ++ "@c.us".

(** [app.post('/api/send', ...)] *)
Definition postSend (body : Body) (env : Env) : M unit :=
  try_catch
    (let number := field "number" body in
     let message := field "message" body in
     w <- get_world ;;
     if negb (whatsappClient w) || negb (BotStatus_eqb (botStatus w) ready) then
       respond 503 [("error", JStr "WhatsApp bot not ready")]
     else if negb (truthy number) || negb (truthy message) then
       respond 400 [("error", JStr "Number and message are required")]
     else
       formattedNumber <-
         match number with
         | JStr n => ret (formatNumber n)
         | _ => throw (Error "number.includes is not a function")
         end ;;
       external (ESendMessage formattedNumber message) (env_send env) ;;;
       respond 200 [("success", JBool true);
                    ("message", JStr "Message sent successfully")] ;;;
       preview <-
         match message with
         | JStr m => ret (prefix 50 m)
         | _ => throw (Error "message.substring is not a function")
         end ;;
       log info ["📤 Message sent to " ++ formattedNumber ++ ": " ++ preview ++ "..."])
    (fun err =>
       log error ["Send message error:"; err_message err] ;;;
       respond 500 [("success", JBool false); ("error", JStr (err_message err))]).

(** [app.post('/api/cache/clear', ...)] *)
Definition postCacheClear : M unit :=
  try_catch
    (cache_flushAll ;;;
     respond 200 [("success", JBool true);
                  ("message", JStr "Cache cleared successfully")] ;;;
     log info ["Cache cleared manually"])
    (fun err =>
       log error ["Cache clear error:"; err_message err] ;;;
       respond 500 [("success", JBool false); ("error", JStr (err_message err))]).

(** [app.get('/api/analytics', ...)] *)
Definition getAnalytics (env : Env) : M unit :=
  w <- get_world ;;
  respond 200
    [("totalUsers", JNum (Z.of_nat (size (connectedUsers w))));
     ("uptime", JNum (env_uptime env));
     ("cacheHits", JNum (Z.of_nat (NodeCache.stat_hits (NodeCache.getStats (cache w)))));
     ("cacheMisses", JNum (Z.of_nat (NodeCache.stat_misses (NodeCache.getStats (cache w)))));
     ("botStatus", JStr (botStatus_name (botStatus w)));
     ("timestamp", JStr (env_timestamp env))].

End Handlers.

(** ** The server as a transition system *)

(** Everything that can run against the module state: the routes, the
    chat client's events, and the cache's periodic sweep.  [GET /] and
    [GET /api/status] only read the state and are left out. *)
Inductive Request : Type :=
| Setup
| ClientQr
| ClientReady
| ClientAuthenticated
| ClientDisconnected (reason : string)
| ClientMessage (msg : Message) (env : Env)
| PostChat (body : Body) (env : Env)
| PostWebhook (body : Body)
| PostSend (body : Body) (env : Env)
| PostCacheClear
| GetAnalytics (env : Env)
| CacheSweep (now : Z).

Definition handler (cfg : Config) (r : Request) : M unit :=
  match r with
  | Setup => setupWhatsAppClient
  | ClientQr => onQr
  | ClientReady => onReady cfg
  | ClientAuthenticated => onAuthenticated
  | ClientDisconnected reason => onDisconnected reason
  | ClientMessage msg env => onMessage cfg msg env
  | PostChat body env => postChat cfg body env
  | PostWebhook body => postWebhook body
  | PostSend body env => postSend body env
  | PostCacheClear => postCacheClear
  | GetAnalytics env => getAnalytics env
  | CacheSweep now =>
      w <- get_world ;;
      put_world (with_cache w (NodeCache.sweep now (cache w)))
  end.

(** The module state after serving one request. *)
Definition serve (cfg : Config) (w : World) (r : Request) : World :=
  (run (handler cfg r) w).1.2.

(** The module state after serving a sequence of requests in order. *)
Definition served (cfg : Config) (w : World) (rs : list Request) : World :=
  fold_left (serve cfg) rs w.

(** [getAIResponse(message, platform)] called, and called again after the
    first call has returned, with the cache operations [between] of whatever
    was served in the meantime: both outcomes, the state the second call
    starts from, the state at the end, and the two traces.  The second call
    does not start while the first is suspended at [await axios.post]: the
    clocks of a use of this definition satisfy
    [env_done env1 <= env_now env2]. *)
Definition handle_twice (cfg : Config) (message platform : string)
    (env1 : Env) (between : list NodeCache.Op) (env2 : Env) (w : World)
  : Outcome string * Outcome string * World * World * list Event * list Event :=
  let '(o1, w1, tr1) := run (getAIResponse cfg message platform env1) w in
  let w1' := with_cache w1 (NodeCache.run (cache w1) between) in
  let '(o2, w2, tr2) := run (getAIResponse cfg message platform env2) w1' in
  (o1, o2, w1', w2, tr1, tr2).

(** A string of [n] copies of [c]. *)
Fixpoint repeat_char (c : ascii) (n : nat) : string :=
  match n with
  | O => ""
  | S n' => String c (repeat_char c n')
  end.

(** ** What one call of getAIResponse amounts to *)

(** The cache after the lookup that opens [getAIResponse]. *)
Definition after_lookup (cfg : Config) (key : string) (now : Z) (c : NodeCache.t)
  : NodeCache.t :=
  if ENABLE_CACHING (FEATURES cfg) then (NodeCache.get key now c).2 else c.

(** The cached value that [if (cached)] accepts, if any. *)
Definition cached_reply (cfg : Config) (key : string) (now : Z) (c : NodeCache.t)
  : option string :=
  if ENABLE_CACHING (FEATURES cfg) then
    match (NodeCache.get key now c).1 with
    | Some v => if is_empty v then None else Some v
    | None => None
    end
  else None.

(** The error [getAIResponse] throws for a failure [e] of the call. *)
Definition translated (cfg : Config) (e : JsError) : JsError :=
  if bool_decide (err_code e = Some "ECONNABORTED")
  then Error (ERROR_AI_TIMEOUT (MESSAGES cfg))
  else Error (ERROR_GENERIC (MESSAGES cfg)).

(** ** Sample inputs *)

Definition sample_env (answer : AxiosOutcome) (now done : Z) : Env := {|
  env_now := now;
  env_axios := answer;
  env_done := done;
  env_reply := None;
  env_reply_error := None;
  env_send := None;
  env_timestamp := "2025-01-01T00:00:00.000Z";
  env_uptime := 60
|}.

(** The completion API is unreachable. *)
Definition refused : JsError :=
  mkError "connect ECONNREFUSED 203.0.113.7:443" (Some "ECONNREFUSED").

(** The chat client fails to deliver. *)
Definition send_failure : JsError :=
  Error "Evaluation failed: TypeError: Cannot read properties of undefined (reading 'getChat')".

(** The module state once the chat client has been set up and is ready. *)
Definition ready_world : World :=
  served config (initial_world config) [Setup; ClientReady].

(** The chat client accepts no message. *)
Definition send_fails_env : Env := {|
  env_now := 1000;
  env_axios := AxiosOk "Hi!";
  env_done := 1001;
  env_reply := Some send_failure;
  env_reply_error := Some send_failure;
  env_send := Some send_failure;
  env_timestamp := "2025-01-01T00:00:00.000Z";
  env_uptime := 60
|}.

(** ** Kinds of request *)

(** The four status events of the chat client. *)
Definition is_status_event (r : Request) : bool :=
  match r with
  | ClientQr | ClientReady | ClientAuthenticated | ClientDisconnected _ => true
  | _ => false
  end.

(** The routes: the requests that carry an Express [res]. *)
Definition is_route (r : Request) : bool :=
  match r with
  | PostChat _ _ | PostWebhook _ | PostSend _ _ | PostCacheClear
  | GetAnalytics _ => true
  | _ => false
  end.

(** [r] is POST /api/cache/clear. *)
Definition is_cache_clear (r : Request) : bool :=
  match r with
  | PostCacheClear => true
  | _ => false
  end.

(** The first test of the message handler:
    [msg.from === 'status@broadcast' || msg.fromMe]. *)
Definition skipped (msg : Message) : bool :=
  String.eqb (msg_from msg) "status@broadcast" || msg_fromMe msg.

(** The senders of the chat-client messages among [rs] that the handler
    does not skip. *)
Fixpoint senders (rs : list Request) : gset string :=
  match rs with
  | [] => ∅
  | ClientMessage msg _ :: rest =>
      if skipped msg then senders rest else {[msg_from msg]} ∪ senders rest
  | _ :: rest => senders rest
  end.

(** [botStatus] after the chat client's event [r], from [st]. *)
Definition status_after (st : BotStatus) (r : Request) : BotStatus :=
  match r with
  | ClientQr => waiting_for_qr
  | ClientReady => ready
  | ClientAuthenticated => authenticated
  | ClientDisconnected _ => disconnected
  | _ => st
  end.

(** [r] is the [ready] event. *)
Definition is_ready_event (r : Request) : bool :=
  match r with
  | ClientReady => true
  | _ => false
  end.

(** The routes that read the module state or the request and write
    nothing. *)
Definition is_passive_route (r : Request) : bool :=
  match r with
  | PostWebhook _ | PostSend _ _ | GetAnalytics _ => true
  | _ => false
  end.

(** The two entry points of the message pipeline. *)
Definition enters_pipeline (r : Request) : bool :=
  match r with
  | ClientMessage _ _ | PostChat _ _ => true
  | _ => false
  end.

(** ** Byte arithmetic of the base64 groups *)

(** The byte values, 0 to 255. *)
Definition all_bytes : list N := map N.of_nat (seq 0 256).

(** The six-bit values, 0 to 63. *)
Definition all_sextets : list N := map N.of_nat (seq 0 64).

(** The four six-bit indices of a group of three bytes, as [Base64.encode]
    computes them: the second reads two bytes, the third two bytes. *)
Definition sextet1 (a : N) : N := N.shiftr a 2.
Definition sextet2 (a b : N) : N := N.lor (N.shiftl (N.land a 3) 4) (N.shiftr b 4).
Definition sextet3 (b c : N) : N := N.lor (N.shiftl (N.land b 15) 2) (N.shiftr c 6).
Definition sextet4 (c : N) : N := N.land c 63.

(** What two neighbouring bytes [x], [y] of a group give back: the indices
    are below 64 and the bytes can be read off them. *)
Definition group_check (x y : N) : bool :=
  (sextet1 x <? 64)%N && (sextet2 x y <? 64)%N
  && (sextet3 x y <? 64)%N && (sextet4 x <? 64)%N
  && (N.lor (N.shiftl (sextet1 x) 2) (N.shiftr (sextet2 x y) 4) =? x)%N
  && (N.land (sextet2 x y) 15 =? N.shiftr y 4)%N
  && (N.shiftr (sextet3 x y) 2 =? N.land x 15)%N
  && (N.lor (N.shiftl (N.land (sextet3 x y) 3) 6) (sextet4 y) =? y)%N
  && (N.lor (N.shiftl (N.shiftr x 4) 4) (N.land x 15) =? x)%N.

(** Two six-bit indices with the same base64 digit are the same, and no
    digit is the padding character. *)
Definition digit_check (i j : N) : bool :=
  implb (Ascii.eqb (Base64.digit i) (Base64.digit j)) (i =? j)%N
  && negb (Ascii.eqb (Base64.digit i) "=").

(** Every element is a byte value. *)
Definition is_bytes (bs : list N) : Prop := Forall (fun b => (b < 256)%N) bs.

(** * Properties *)

(** ** The cache key *)

Example cacheKey_hello : cacheKey "web" "hello" = "ai_web_aGVsbG8=".
Proof. reflexivity. Qed.

Example cacheKey_long :
  cacheKey "whatsapp" "What is the capital of France?"
  = "ai_whatsapp_V2hhdCBpcyB0aGUgY2Fw".
Proof. reflexivity. Qed.

(** Only the first fifteen bytes of the message reach the key. *)
Example cacheKey_shared_prefix :
  cacheKey "web" "What is the capital of France?"
  = cacheKey "web" "What is the capital of Spain?".
Proof. vm_compute. reflexivity. Qed.

(** C7: the cache key is a function of the platform and the message alone:
    equal platforms and equal messages give equal keys. *)
Theorem cacheKey_deterministic (p1 m1 p2 m2 : string) :
  p1 = p2 -> m1 = m2 -> cacheKey p1 m1 = cacheKey p2 m2.
Proof. intros Hp Hm. rewrite Hp, Hm. reflexivity. Qed.

Lemma cacheKey_deterministic_witness :
  cacheKey "web" "hello" = cacheKey "web" "hello".
Proof. apply (cacheKey_deterministic "web" "hello" "web" "hello"); reflexivity. Defined.

(** ** The cache *)

Section CacheFacts.

Import NodeCache.

Lemma get_peek k now c : (get k now c).1 = peek k now c.
Proof. unfold get. destruct (peek k now c); reflexivity. Qed.

Lemma get_data k now c : data (get k now c).2 = data c.
Proof. unfold get. destruct (peek k now c); reflexivity. Qed.

Lemma get_stdTTL k now c : stdTTL (get k now c).2 = stdTTL c.
Proof. unfold get. destruct (peek k now c); reflexivity. Qed.

Lemma get_hits k now c : (hits c <= hits (get k now c).2)%nat.
Proof. unfold get. destruct (peek k now c); simpl; lia. Qed.

Lemma get_misses k now c : (misses c <= misses (get k now c).2)%nat.
Proof. unfold get. destruct (peek k now c); simpl; lia. Qed.

Lemma peek_get k k' now now' c : peek k now (get k' now' c).2 = peek k now c.
Proof. unfold peek. rewrite get_data. reflexivity. Qed.

Lemma peek_set_live k v now later c :
  later < now + stdTTL c -> peek k later (set k v now c) = Some v.
Proof.
  intros Hlt. unfold peek, set, live. simpl. rewrite lookup_insert_eq. simpl.
  destruct (Z.ltb_spec later (now + stdTTL c)); [reflexivity | lia].
Qed.

Lemma peek_set_expired k v now later c :
  now + stdTTL c <= later -> peek k later (set k v now c) = None.
Proof.
  intros Hle. unfold peek, set, live. simpl. rewrite lookup_insert_eq. simpl.
  destruct (Z.ltb_spec later (now + stdTTL c)); [lia | reflexivity].
Qed.

Lemma expires_by_apply k deadline c o :
  sets_key k o = false -> expires_by k deadline c ->
  expires_by k deadline (apply c o).
Proof.
  intros Hk Hc e. destruct o as [k' now | k' v now | | now]; simpl.
  - rewrite get_data. apply Hc.
  - simpl in Hk. apply String.eqb_neq in Hk.
    rewrite lookup_insert_ne by exact Hk. apply Hc.
  - rewrite lookup_empty. discriminate.
  - intros He. apply map_lookup_filter_Some in He as [He _]. apply Hc, He.
Qed.

Lemma expires_by_run k deadline ops :
  forall c, Forall (fun o => sets_key k o = false) ops ->
    expires_by k deadline c -> expires_by k deadline (run c ops).
Proof.
  induction ops as [| o ops IH]; intros c Hops Hc; [exact Hc |].
  inversion Hops as [| ? ? Ho Hrest]; subst.
  apply IH; [exact Hrest |]. apply expires_by_apply; assumption.
Qed.

Lemma peek_expired k deadline later c :
  expires_by k deadline c -> deadline <= later -> peek k later c = None.
Proof.
  intros Hc Hle. unfold peek. destruct (data c !! k) as [e |] eqn:He; [| reflexivity].
  specialize (Hc e He). unfold live.
  destruct (Z.ltb_spec later (expiresAt e)); [lia | reflexivity].
Qed.

Lemma apply_hits c o :
  is_flush o = false -> (hits c <= hits (apply c o))%nat.
Proof.
  destruct o; simpl; intros Hflush;
    [apply get_hits | lia | discriminate | lia].
Qed.

Lemma apply_misses c o :
  is_flush o = false -> (misses c <= misses (apply c o))%nat.
Proof.
  destruct o; simpl; intros Hflush;
    [apply get_misses | lia | discriminate | lia].
Qed.

Lemma run_hits ops :
  forall c, Forall (fun o => is_flush o = false) ops ->
    (hits c <= hits (run c ops))%nat.
Proof.
  induction ops as [| o ops IH]; intros c Hops; simpl; [lia |].
  inversion Hops as [| ? ? Ho Hrest]; subst.
  etransitivity; [apply (apply_hits c o Ho) | apply IH, Hrest].
Qed.

Lemma run_misses ops :
  forall c, Forall (fun o => is_flush o = false) ops ->
    (misses c <= misses (run c ops))%nat.
Proof.
  induction ops as [| o ops IH]; intros c Hops; simpl; [lia |].
  inversion Hops as [| ? ? Ho Hrest]; subst.
  etransitivity; [apply (apply_misses c o Ho) | apply IH, Hrest].
Qed.

(** An entry that is live at [before] stays under its key through the
    operations that [keeps] allows. *)
Lemma keeps_apply k before e c o :
  keeps k before o = true ->
  before < expiresAt e ->
  data c !! k = Some e -> data (apply c o) !! k = Some e.
Proof.
  intros Hkeep Hlive He. destruct o as [k' now | k' v now | | now]; simpl in *.
  - rewrite get_data. exact He.
  - apply negb_true_iff, String.eqb_neq in Hkeep.
    rewrite lookup_insert_ne by exact Hkeep. exact He.
  - discriminate.
  - apply map_lookup_filter_Some. split; [exact He |].
    simpl. unfold live. apply Z.leb_le in Hkeep.
    destruct (Z.ltb_spec now (expiresAt e)); [reflexivity | lia].
Qed.

Lemma keeps_run k before e ops :
  forall c, Forall (fun o => keeps k before o = true) ops ->
    before < expiresAt e ->
    data c !! k = Some e -> data (run c ops) !! k = Some e.
Proof.
  induction ops as [| o ops IH]; intros c Hops Hlive He; [exact He |].
  inversion Hops as [| ? ? Ho Hrest]; subst.
  apply IH; [exact Hrest | exact Hlive |].
  apply keeps_apply with (before := before); assumption.
Qed.


Lemma run_app c ops1 ops2 : run c (ops1 ++ ops2) = run (run c ops1) ops2.
Proof. unfold run. apply fold_left_app. Qed.

End CacheFacts.

(** C2: [cache.set(k, v)] followed at once by [cache.get(k)] gives [v]; when
    the TTL of [config.js], 300 seconds, has passed since the insertion and
    the key was not set again, [cache.get(k)] gives nothing, whatever else
    was done to the cache in between. *)
Theorem cache_set_get_roundtrip (c : NodeCache.t) (k v : string) (now : Z) :
  NodeCache.stdTTL c = TTL (CACHE config) ->
  (NodeCache.get k now (NodeCache.set k v now c)).1 = Some v
  /\ forall (ops : list NodeCache.Op) (later : Z),
       Forall (fun o => NodeCache.sets_key k o = false) ops ->
       now + 300 <= later ->
       (NodeCache.get k later (NodeCache.run (NodeCache.set k v now c) ops)).1 = None.
Proof.
  intros Httl. simpl in Httl. split.
  - rewrite get_peek. apply peek_set_live. lia.
  - intros ops later Hops Hlater. rewrite get_peek.
    apply (peek_expired k (now + 300)); [| exact Hlater].
    apply expires_by_run; [exact Hops |].
    intros e He. unfold NodeCache.set in He. simpl in He.
    rewrite lookup_insert_eq in He. inversion He; subst. simpl. lia.
Qed.

Lemma cache_set_get_roundtrip_witness :
  let c := cache (initial_world config) in
  let k := cacheKey "web" "hello" in
  (NodeCache.get k 1000 (NodeCache.set k "Hi!" 1000 c)).1 = Some "Hi!"
  /\ (NodeCache.get k 1300
        (NodeCache.run (NodeCache.set k "Hi!" 1000 c)
           [NodeCache.OpGet k 1100; NodeCache.OpSweep 1200;
            NodeCache.OpSet (cacheKey "web" "bye") "Bye!" 1250])).1 = None.
Proof.
  destruct (cache_set_get_roundtrip (cache (initial_world config))
              (cacheKey "web" "hello") "Hi!" 1000 eq_refl) as [Hnow Hlater].
  split; [exact Hnow |].
  apply Hlater; [| lia].
  repeat constructor.
Defined.

(** ** Running handlers *)

Arguments cacheKey : simpl never.
Arguments prefix : simpl never.
Arguments NodeCache.get : simpl never.
Arguments NodeCache.set : simpl never.
Arguments NodeCache.flushAll : simpl never.
Arguments NodeCache.sweep : simpl never.
Arguments String.append : simpl never.
Arguments systemPromptFor : simpl never.
Arguments Nat.ltb : simpl never.

(** Unfold the monad and the handler-level operations, then compute. *)
Ltac unfold_M :=
  unfold run, external, log, respond, emit, cache_get, cache_set,
    cache_flushAll, connectedUsers_add, set_botStatus, get_world, put_world,
    try_catch, bind, throw, ret in *.

Ltac exec := unfold_M; cbn.

Lemma BotStatus_eqb_eq a b : BotStatus_eqb a b = true <-> a = b.
Proof. destruct a, b; simpl; split; intros H; congruence. Qed.

Lemma is_empty_false s : s <> "" -> is_empty s = false.
Proof. destruct s; [congruence | reflexivity]. Qed.

(** ** The chat client's message handler *)

Lemma onMessage_skip_run cfg msg env w :
  msg_from msg = "status@broadcast" \/ msg_fromMe msg = true ->
  run (onMessage cfg msg env) w = (Returned tt, w, []).
Proof.
  intros Hskip. unfold onMessage.
  assert (String.eqb (msg_from msg) "status@broadcast" || msg_fromMe msg = true) as ->.
  { destruct Hskip as [-> | ->]; [reflexivity | apply orb_true_r]. }
  reflexivity.
Qed.

(** C9: a chat-client message from [status@broadcast], or one the bot sent
    itself, ends the handler at once: no completion call, no reply, and the
    active-user set is as before. *)
Theorem onMessage_ignores_status_and_own cfg msg env w :
  msg_from msg = "status@broadcast" \/ msg_fromMe msg = true ->
  let '(o, w', tr) := run (onMessage cfg msg env) w in
  o = Returned tt
  /\ completion_calls tr = 0%nat
  /\ List.filter is_reply tr = []
  /\ connectedUsers w' = connectedUsers w.
Proof.
  intros Hskip. rewrite (onMessage_skip_run cfg msg env w Hskip).
  repeat split.
Qed.

Lemma onMessage_ignores_status_and_own_witness :
  let '(o, w', tr) :=
    run (onMessage config
           {| msg_from := "status@broadcast"; msg_fromMe := false;
              msg_body := "a status update" |}
           (sample_env (AxiosOk "Hi!") 1000 1001)) ready_world in
  o = Returned tt
  /\ completion_calls tr = 0%nat
  /\ List.filter is_reply tr = []
  /\ connectedUsers w' = connectedUsers ready_world.
Proof.
  apply (onMessage_ignores_status_and_own config
           {| msg_from := "status@broadcast"; msg_fromMe := false;
              msg_body := "a status update" |}
           (sample_env (AxiosOk "Hi!") 1000 1001) ready_world).
  left. reflexivity.
Defined.

(** ** POST /api/send *)

Lemma postSend_not_ready_run body env w :
  whatsappClient w = false \/ botStatus w <> ready ->
  run (postSend body env) w
  = (Returned tt, w, [EResponse 503 [("error", JStr "WhatsApp bot not ready")]]).
Proof.
  intros Hnot. unfold postSend. exec.
  assert (negb (whatsappClient w) || negb (BotStatus_eqb (botStatus w) ready) = true) as ->.
  { destruct Hnot as [-> | Hst]; [reflexivity |].
    destruct (BotStatus_eqb (botStatus w) ready) eqn:E.
    - apply BotStatus_eqb_eq in E. contradiction.
    - apply orb_true_r. }
  reflexivity.
Qed.

(** C5: while the chat client is not initialised or its status is not
    [ready], POST /api/send answers 503 and [sendMessage] is not called. *)
Theorem postSend_not_ready body env w :
  whatsappClient w = false \/ botStatus w <> ready ->
  let '(o, w', tr) := run (postSend body env) w in
  responses tr = [(503, [("error", JStr "WhatsApp bot not ready")])]
  /\ List.filter is_send tr = []
  /\ w' = w.
Proof.
  intros Hnot. rewrite (postSend_not_ready_run body env w Hnot).
  repeat split.
Qed.

Lemma postSend_not_ready_witness :
  let '(o, w', tr) :=
    run (postSend [("number", JStr "15551234567"); ("message", JStr "hi")]
           (sample_env (AxiosOk "Hi!") 1000 1001))
      (serve config (initial_world config) Setup) in
  responses tr = [(503, [("error", JStr "WhatsApp bot not ready")])]
  /\ List.filter is_send tr = []
  /\ w' = serve config (initial_world config) Setup.
Proof.
  apply (postSend_not_ready
           [("number", JStr "15551234567"); ("message", JStr "hi")]
           (sample_env (AxiosOk "Hi!") 1000 1001)
           (serve config (initial_world config) Setup)).
  right. cbn. discriminate.
Defined.

(** C10: a request that the bot is ready for, with a number and a message,
    is dispatched once, to the number itself when it contains [@] and to the
    number followed by [@c.us] otherwise, with the message as it came. *)
Theorem postSend_destination body env w number :
  whatsappClient w = true ->
  botStatus w = ready ->
  field "number" body = JStr number ->
  number <> "" ->
  truthy (field "message" body) = true ->
  let '(o, w', tr) := run (postSend body env) w in
  List.filter is_send tr
  = [ESendMessage (if includes "@" number then number else number ++ "@c.us")
       (field "message" body)].
Proof.
  intros Hc Hst Hn Hne Hm. unfold postSend, formatNumber. exec.
  rewrite Hc, Hst, Hn, Hm. cbn. rewrite (is_empty_false number Hne). cbn.
  destruct (env_send env) as [err |]; cbn; [reflexivity |].
  destruct (field "message" body); cbn; reflexivity.
Qed.

Lemma postSend_destination_witness :
  let body := [("number", JStr "15551234567"); ("message", JStr "hi")] in
  let '(o, w', tr) :=
    run (postSend body (sample_env (AxiosOk "Hi!") 1000 1001)) ready_world in
  List.filter is_send tr
  = [ESendMessage
       (if includes "@" "15551234567" then "15551234567"
        else "15551234567" ++ "@c.us")
       (field "message" body)].
Proof.
  apply (postSend_destination
           [("number", JStr "15551234567"); ("message", JStr "hi")]
           (sample_env (AxiosOk "Hi!") 1000 1001) ready_world "15551234567").
  - reflexivity.
  - reflexivity.
  - reflexivity.
  - discriminate.
  - reflexivity.
Defined.

Example postSend_adds_suffix :
  (run (postSend [("number", JStr "15551234567"); ("message", JStr "hi")]
          (sample_env (AxiosOk "Hi!") 1000 1001)) ready_world).2
  = [ESendMessage "15551234567@c.us" (JStr "hi");
     EResponse 200 [("success", JBool true);
                    ("message", JStr "Message sent successfully")];
     ELog info ["📤 Message sent to 15551234567@c.us: hi..."]].
Proof. vm_compute. reflexivity. Qed.

Example postSend_keeps_chat_id :
  List.filter is_send
    (run (postSend [("number", JStr "120363025@g.us"); ("message", JStr "hi")]
            (sample_env (AxiosOk "Hi!") 1000 1001)) ready_world).2
  = [ESendMessage "120363025@g.us" (JStr "hi")].
Proof. vm_compute. reflexivity. Qed.

(** Conversely, whatever POST /api/send dispatches is the formatted number
    of a string [number] field and the [message] field itself. *)
Lemma postSend_dispatch_inv body env w chatId content :
  In (ESendMessage chatId content) (run (postSend body env) w).2 ->
  exists number,
    field "number" body = JStr number
    /\ chatId = formatNumber number
    /\ content = field "message" body
    /\ whatsappClient w = true /\ botStatus w = ready.
Proof.
  unfold postSend. exec.
  destruct (whatsappClient w) eqn:Hc; cbn;
    [| intros [H | []]; discriminate].
  destruct (BotStatus_eqb (botStatus w) ready) eqn:Hst; cbn;
    [| intros [H | []]; discriminate].
  apply BotStatus_eqb_eq in Hst.
  destruct (truthy (field "number" body)) eqn:Hn; cbn;
    [| intros [H | []]; discriminate].
  destruct (truthy (field "message" body)) eqn:Hm; cbn;
    [| intros [H | []]; discriminate].
  destruct (field "number" body) as [| | b | n | number |] eqn:Hnum; cbn;
    try (intros [H | [H | []]]; discriminate).
  intros Hin. exists number.
  assert (ESendMessage chatId content
          = ESendMessage (formatNumber number) (field "message" body)) as Heq.
  { destruct (env_send env); cbn in Hin.
    - destruct Hin as [H | [H | [H | []]]]; congruence.
    - destruct (field "message" body); cbn in Hin;
        repeat (destruct Hin as [Hin | Hin]; try congruence); contradiction. }
  inversion Heq; subst. auto.
Qed.

(** ** getAIResponse *)

Lemma getAIResponse_run cfg message platform env s :
  getAIResponse cfg message platform env s =
  let key := cacheKey platform message in
  let w := world s in
  let c0 := after_lookup cfg key (env_now env) (cache w) in
  let post := EAxiosPost (API_URL (AI cfg)) (MODEL (AI cfg))
                (systemPromptFor (SYSTEM_PROMPTS (AI cfg)) platform) message in
  match cached_reply cfg key (env_now env) (cache w) with
  | Some v =>
      (Returned v,
       {| world := with_cache w c0;
          trace := trace s ++ [ELog info ["Cache hit for AI response"]] |})
  | None =>
      match env_axios env with
      | AxiosOk content =>
          (Returned content,
           {| world := with_cache w
                         (if ENABLE_CACHING (FEATURES cfg)
                          then NodeCache.set key content (env_done env) c0
                          else c0);
              trace := trace s ++ [post] |})
      | AxiosFail e =>
          (Thrown (translated cfg e),
           {| world := with_cache w c0;
              trace := trace s ++ [post; ELog error ["AI API Error:"; err_message e]] |})
      end
  end.
Proof.
  destruct s as [[cl st us c] tr].
  unfold getAIResponse, askCompletion, cached_reply, after_lookup, translated,
    with_cache.
  exec.
  destruct (ENABLE_CACHING (FEATURES cfg)); cbn.
  - destruct (NodeCache.get (cacheKey platform message) (env_now env) c).1 as [v |];
      cbn.
    + destruct (is_empty v); cbn; [| reflexivity].
      destruct (env_axios env) as [content | e]; cbn; [reflexivity |].
      rewrite <- app_assoc.
      destruct (bool_decide (err_code e = Some "ECONNABORTED")); reflexivity.
    + destruct (env_axios env) as [content | e]; cbn; [reflexivity |].
      rewrite <- app_assoc.
      destruct (bool_decide (err_code e = Some "ECONNABORTED")); reflexivity.
  - destruct (env_axios env) as [content | e]; cbn; [reflexivity |].
    rewrite <- app_assoc.
    destruct (bool_decide (err_code e = Some "ECONNABORTED")); reflexivity.
Qed.

Arguments getAIResponse : simpl never.

(** ** POST /api/chat *)

(** Split a run of [postChat] on a message that passed validation into the
    three ways [getAIResponse] can end. *)
Ltac chat_cases cfg env w text :=
  rewrite getAIResponse_run; cbn;
  destruct (cached_reply cfg (cacheKey "web" text) (env_now env) (cache w))
    as [cached |]; cbn;
  [| destruct (env_axios env) as [content | failure] eqn:Haxios; cbn ].

(** Split a run of [postChat] into its two rejections and the three ways
    through [getAIResponse]. *)
Ltac postChat_cases cfg body env w :=
  unfold postChat; exec;
  destruct (negb (truthy (field "message" body))
            || negb (is_string (field "message" body))) eqn:Hguard; cbn;
  [| destruct (2000 <? String.length (str_of (field "message" body)))%nat
       eqn:Hlong; cbn;
     [| chat_cases cfg env w (str_of (field "message" body)) ] ].

(** C3: POST /api/chat answers 400 without a completion call when the
    message is missing, empty, not a string or longer than 2000 characters;
    a message of exactly 2000 characters is not rejected: it goes through the
    pipeline and is answered 200 or 500. *)
Theorem postChat_validation cfg body env w :
  let message := field "message" body in
  (truthy message = false \/ is_string message = false
     \/ (2000 < String.length (str_of message))%nat ->
   let '(o, w', tr) := run (postChat cfg body env) w in
   (exists text, responses tr = [(400, [("error", JStr text)])])
   /\ completion_calls tr = 0%nat)
  /\ (forall text, message = JStr text -> String.length text = 2000%nat ->
      let '(o, w', tr) := run (postChat cfg body env) w in
      exists st b, responses tr = [(st, b)] /\ (st = 200 \/ st = 500)).
Proof.
  cbv zeta. split.
  - intros Hbad. postChat_cases cfg body env w.
    1, 2: split; [eexists; reflexivity | reflexivity].
    all: exfalso; apply orb_false_iff in Hguard as [Ht Hs];
      apply negb_false_iff in Ht; apply negb_false_iff in Hs;
      apply Nat.ltb_ge in Hlong;
      destruct Hbad as [Hbad | [Hbad | Hbad]]; [congruence | congruence | lia].
  - intros text Hm Hlen. unfold postChat. exec.
    rewrite Hm. cbn. rewrite is_empty_false by (intros ->; discriminate). cbn.
    rewrite Hlen.
    replace (2000 <? 2000)%nat with false by (symmetry; apply Nat.ltb_irrefl).
    chat_cases cfg env w text; do 2 eexists; (split; [reflexivity | auto]).
Qed.

Lemma postChat_validation_witness :
  (let '(o, w', tr) :=
     run (postChat config [("message", JStr (repeat_char "a" 2001))]
            (sample_env (AxiosOk "Hi!") 1000 1001)) ready_world in
   (exists text, responses tr = [(400, [("error", JStr text)])])
   /\ completion_calls tr = 0%nat)
  /\ (let '(o, w', tr) :=
        run (postChat config [("message", JStr (repeat_char "a" 2000))]
               (sample_env (AxiosOk "Hi!") 1000 1001)) ready_world in
      exists st b, responses tr = [(st, b)] /\ (st = 200 \/ st = 500)).
Proof.
  split.
  - apply (proj1 (postChat_validation config
                    [("message", JStr (repeat_char "a" 2001))]
                    (sample_env (AxiosOk "Hi!") 1000 1001) ready_world)).
    right; right. apply Nat.ltb_lt. vm_compute. reflexivity.
  - apply (proj2 (postChat_validation config
                    [("message", JStr (repeat_char "a" 2000))]
                    (sample_env (AxiosOk "Hi!") 1000 1001) ready_world)
             (repeat_char "a" 2000)).
    + reflexivity.
    + vm_compute. reflexivity.
Defined.

(** ** The active-user set *)

(** Split a run of [onMessage] on a message that is not skipped into the
    ways through [getAIResponse] and the two replies. *)
Ltac onMessage_cases cfg msg env w :=
  unfold onMessage; exec;
  rewrite getAIResponse_run; cbn;
  destruct (cached_reply cfg (cacheKey "whatsapp" (msg_body msg)) (env_now env)
              (cache w)) as [cached |]; cbn;
  [| destruct (env_axios env) as [content | failure] eqn:Haxios; cbn ];
  destruct (env_reply env) as [reply_failure |]; cbn;
  destruct (env_reply_error env) as [apology_failure |]; cbn.

Lemma not_skipped msg :
  msg_from msg <> "status@broadcast" -> msg_fromMe msg = false ->
  String.eqb (msg_from msg) "status@broadcast" || msg_fromMe msg = false.
Proof.
  intros Hfrom Hme. rewrite Hme, orb_false_r. apply String.eqb_neq, Hfrom.
Qed.

Lemma onMessage_users cfg msg env w :
  msg_from msg <> "status@broadcast" -> msg_fromMe msg = false ->
  connectedUsers (serve cfg w (ClientMessage msg env))
  = {[msg_from msg]} ∪ connectedUsers w.
Proof.
  intros Hfrom Hme. unfold serve, handler.
  pose proof (not_skipped msg Hfrom Hme) as Hskip.
  unfold onMessage. rewrite Hskip. fold (onMessage cfg msg env).
  onMessage_cases cfg msg env w; reflexivity.
Qed.

Lemma postChat_users cfg body env w :
  connectedUsers (serve cfg w (PostChat body env)) = connectedUsers w.
Proof.
  unfold serve, handler. postChat_cases cfg body env w; reflexivity.
Qed.

(** C6, as the code has it: the chat-client handler adds the sender of every
    message it does not skip to the active-user set, whatever happens to the
    message afterwards; POST /api/chat leaves the set as it was, with or
    without a [sessionId]. *)
Theorem active_users_recorded cfg w :
  (forall msg env,
      msg_from msg <> "status@broadcast" -> msg_fromMe msg = false ->
      connectedUsers (serve cfg w (ClientMessage msg env))
      = {[msg_from msg]} ∪ connectedUsers w)
  /\ (forall body env,
        connectedUsers (serve cfg w (PostChat body env)) = connectedUsers w).
Proof.
  split.
  - intros msg env. apply onMessage_users.
  - intros body env. apply postChat_users.
Qed.

Lemma active_users_recorded_witness :
  connectedUsers
    (serve config ready_world
       (ClientMessage {| msg_from := "4915112345678@c.us"; msg_fromMe := false;
                         msg_body := "hello" |}
          (sample_env (AxiosOk "Hi!") 1000 1001)))
  = {[ "4915112345678@c.us" ]} ∪ connectedUsers ready_world.
Proof.
  apply (proj1 (active_users_recorded config ready_world)
           {| msg_from := "4915112345678@c.us"; msg_fromMe := false;
              msg_body := "hello" |}
           (sample_env (AxiosOk "Hi!") 1000 1001)).
  - cbn. discriminate.
  - reflexivity.
Defined.

(** C6 as stated fails on the web origin: a chat request with a [sessionId]
    is answered, and the identifier is not in the active-user set. *)
Lemma web_session_not_recorded :
  let body := [("message", JStr "hello"); ("sessionId", JStr "session-42")] in
  let env := sample_env (AxiosOk "Hi!") 1000 1001 in
  responses (run (postChat config body env) ready_world).2
  = [(200, [("success", JBool true); ("reply", JStr "Hi!");
            ("timestamp", JStr "2025-01-01T00:00:00.000Z");
            ("sessionId", JStr "session-42")])]
  /\ "session-42" ∉ connectedUsers (serve config ready_world (PostChat body env)).
Proof.
  cbv zeta. split.
  - vm_compute. reflexivity.
  - rewrite postChat_users.
    change (connectedUsers ready_world) with (∅ : gset string).
    apply not_elem_of_empty.
Qed.

(** ** What the user sees of an error *)






(** The rejections of POST /api/chat carry texts of their own as well. *)
Example postChat_rejection_text :
  responses (run (postChat config [("message", JNum 7)]
                    (sample_env (AxiosOk "Hi!") 1000 1001)) ready_world).2
  = [(400, [("error", JStr "Message is required and must be a string")])].
Proof. vm_compute. reflexivity. Qed.

(** ** Handling the same message twice *)

Lemma after_lookup_stdTTL cfg key now c :
  NodeCache.stdTTL (after_lookup cfg key now c) = NodeCache.stdTTL c.
Proof.
  unfold after_lookup. destruct (ENABLE_CACHING (FEATURES cfg)); [| reflexivity].
  apply get_stdTTL.
Qed.

(** A value stored on a miss is the cached reply of a later lookup that
    comes before its expiry. *)
Lemma cached_reply_after_set cfg key reply done later c :
  ENABLE_CACHING (FEATURES cfg) = true ->
  reply <> "" ->
  later < done + NodeCache.stdTTL c ->
  cached_reply cfg key later (NodeCache.set key reply done c) = Some reply.
Proof.
  intros Hon Hne Hlive. unfold cached_reply. rewrite Hon, get_peek.
  rewrite peek_set_live by exact Hlive.
  rewrite (is_empty_false reply Hne). reflexivity.
Qed.

(** One call of [getAIResponse] invokes the completion client at most once. *)
Lemma getAIResponse_calls cfg message platform env w :
  (completion_calls (run (getAIResponse cfg message platform env) w).2 <= 1)%nat.
Proof.
  unfold run. rewrite getAIResponse_run. cbn.
  destruct (cached_reply cfg (cacheKey platform message) (env_now env) (cache w));
    cbn; [lia |].
  destruct (env_axios env); cbn; lia.
Qed.

(** A reply stored by [set] is still the accepted cache entry at a later
    lookup when that lookup comes before the expiry and everything done to
    the cache in between keeps the entry. *)
Lemma cached_reply_kept cfg key reply done later between c :
  ENABLE_CACHING (FEATURES cfg) = true ->
  reply <> "" ->
  later < done + NodeCache.stdTTL c ->
  Forall (fun o => NodeCache.keeps key later o = true) between ->
  NodeCache.peek key later
    (NodeCache.run (NodeCache.set key reply done c) between) = Some reply
  /\ cached_reply cfg key later
       (NodeCache.run (NodeCache.set key reply done c) between) = Some reply.
Proof.
  intros Hon Hne Hlive Hkeep.
  assert (NodeCache.peek key later
            (NodeCache.run (NodeCache.set key reply done c) between)
          = Some reply) as Hpeek.
  { unfold NodeCache.peek.
    rewrite (keeps_run key later
               {| NodeCache.value := reply;
                  NodeCache.expiresAt := done + NodeCache.stdTTL c |}
               between _ Hkeep).
    - unfold NodeCache.live. cbn.
      destruct (Z.ltb_spec later (done + NodeCache.stdTTL c)); [reflexivity | lia].
    - cbn. exact Hlive.
    - unfold NodeCache.set. cbn. apply lookup_insert_eq. }
  split; [exact Hpeek |].
  unfold cached_reply. rewrite Hon, get_peek, Hpeek.
  rewrite (is_empty_false reply Hne). reflexivity.
Qed.

(** C1, as the code has it: with caching on, take two handlings of the same
    (platform, message), the second starting after the first has returned
    and looking the key up before a reply stored by the first would expire,
    with nothing in between that flushes the cache or stores under the same
    key; let the completion API answer the first handling, if asked, with a
    non-empty reply.  Then the two handlings invoke the completion client at
    most once.  And when the first handling finds nothing under the key, it
    invokes the client once, returns the reply and stores it under the
    fingerprint, and the second handling returns the same reply from the
    cache, logging the hit, without a completion call. *)
Theorem getAIResponse_twice cfg message platform env1 between env2 w reply :
  ENABLE_CACHING (FEATURES cfg) = true ->
  env_axios env1 = AxiosOk reply ->
  reply <> "" ->
  env_done env1 <= env_now env2 ->
  env_now env2 < env_done env1 + NodeCache.stdTTL (cache w) ->
  Forall (fun o => NodeCache.keeps (cacheKey platform message) (env_now env2) o
                   = true) between ->
  let '(o1, o2, w1, w2, tr1, tr2) :=
    handle_twice cfg message platform env1 between env2 w in
  (completion_calls (tr1 ++ tr2) <= 1)%nat
  /\ (NodeCache.peek (cacheKey platform message) (env_now env1) (cache w) = None ->
      completion_calls tr1 = 1%nat
      /\ o1 = Returned reply
      /\ NodeCache.peek (cacheKey platform message) (env_now env2) (cache w1)
         = Some reply
      /\ o2 = Returned reply
      /\ tr2 = [ELog info ["Cache hit for AI response"]]
      /\ completion_calls tr2 = 0%nat).
Proof.
  intros Hon Hok Hne Hafter Hlive Hkeep. unfold handle_twice, run.
  rewrite (getAIResponse_run cfg message platform env1). cbn.
  destruct (cached_reply cfg (cacheKey platform message) (env_now env1) (cache w))
    as [v |] eqn:Hfirst; cbn.
  - (* the first handling is a hit *)
    pose proof (getAIResponse_calls cfg message platform env2
                  (with_cache
                     (with_cache w (after_lookup cfg (cacheKey platform message)
                                      (env_now env1) (cache w)))
                     (NodeCache.run
                        (after_lookup cfg (cacheKey platform message)
                           (env_now env1) (cache w)) between))) as Hle.
    unfold run in Hle.
    destruct (getAIResponse cfg message platform env2 _) as [o2 s2].
    cbn in *. split; [exact Hle |].
    intros Hmiss. exfalso.
    unfold cached_reply in Hfirst. rewrite Hon, get_peek, Hmiss in Hfirst.
    discriminate.
  - (* the first handling asks the completion client *)
    rewrite Hok, Hon. cbn.
    rewrite (getAIResponse_run cfg message platform env2). cbn.
    assert (env_now env2
            < env_done env1
              + NodeCache.stdTTL (after_lookup cfg (cacheKey platform message)
                                    (env_now env1) (cache w))) as Hlive'.
    { rewrite after_lookup_stdTTL. exact Hlive. }
    destruct (cached_reply_kept cfg (cacheKey platform message) reply
                (env_done env1) (env_now env2) between _ Hon Hne Hlive' Hkeep)
      as [Hpeek Hcached].
    rewrite Hcached. cbn.
    split; [lia |]. intros _. repeat split. exact Hpeek.
Qed.

Lemma getAIResponse_twice_witness :
  let '(o1, o2, w1, w2, tr1, tr2) :=
    handle_twice config "hello" "web"
      (sample_env (AxiosOk "Hi!") 1000 1001)
      [NodeCache.OpGet (cacheKey "web" "bye") 1100;
       NodeCache.OpSet (cacheKey "web" "bye") "Bye!" 1101;
       NodeCache.OpSweep 1200]
      (sample_env (AxiosOk "Hello again!") 1300 1301)
      (initial_world config) in
  (completion_calls (tr1 ++ tr2) <= 1)%nat
  /\ (NodeCache.peek (cacheKey "web" "hello") 1000 (cache (initial_world config))
      = None ->
      completion_calls tr1 = 1%nat
      /\ o1 = Returned "Hi!"
      /\ NodeCache.peek (cacheKey "web" "hello") 1300 (cache w1) = Some "Hi!"
      /\ o2 = Returned "Hi!"
      /\ tr2 = [ELog info ["Cache hit for AI response"]]
      /\ completion_calls tr2 = 0%nat).
Proof.
  apply (getAIResponse_twice config "hello" "web"
           (sample_env (AxiosOk "Hi!") 1000 1001)
           [NodeCache.OpGet (cacheKey "web" "bye") 1100;
            NodeCache.OpSet (cacheKey "web" "bye") "Bye!" 1101;
            NodeCache.OpSweep 1200]
           (sample_env (AxiosOk "Hello again!") 1300 1301)
           (initial_world config) "Hi!").
  - reflexivity.
  - reflexivity.
  - discriminate.
  - cbn. lia.
  - cbn. lia.
  - repeat constructor.
Defined.

(** C1 as stated fails when the completion call fails: nothing is stored,
    and the same message, handled again after the first handling has
    returned and well inside the TTL, invokes the completion client a second
    time. *)
Lemma failed_completion_is_asked_again :
  let env1 := sample_env (AxiosFail refused) 1000 1001 in
  let env2 := sample_env (AxiosFail refused) 1005 1006 in
  let '(o1, o2, w1, w2, tr1, tr2) :=
    handle_twice config "hello" "web" env1 [] env2 (initial_world config) in
  ENABLE_CACHING (FEATURES config) = true
  /\ env_done env1 <= env_now env2 < env_now env1 + TTL (CACHE config)
  /\ completion_calls (tr1 ++ tr2) = 2%nat.
Proof.
  vm_compute. repeat split; discriminate.
Qed.

(** An empty reply is stored, but [if (cached)] does not accept it: the
    second handling asks again. *)
Example empty_reply_is_asked_again :
  let env1 := sample_env (AxiosOk "") 1000 1001 in
  let env2 := sample_env (AxiosOk "") 1005 1006 in
  let '(o1, o2, w1, w2, tr1, tr2) :=
    handle_twice config "hello" "web" env1 [] env2 (initial_world config) in
  NodeCache.peek (cacheKey "web" "hello") 1005 (cache w1) = Some ""
  /\ completion_calls (tr1 ++ tr2) = 2%nat.
Proof.
  vm_compute. split; reflexivity.
Qed.

(** A flush between the two handlings empties the cache: the second
    handling asks again. *)
Example flush_in_between_is_asked_again :
  let env1 := sample_env (AxiosOk "Hi!") 1000 1001 in
  let env2 := sample_env (AxiosOk "Hi!") 1005 1006 in
  let '(o1, o2, w1, w2, tr1, tr2) :=
    handle_twice config "hello" "web" env1 [NodeCache.OpFlushAll] env2
      (initial_world config) in
  completion_calls (tr1 ++ tr2) = 2%nat.
Proof.
  vm_compute. reflexivity.
Qed.

(** ** The cache under the whole server *)

(** Name the cache operations of one path of a handler. *)
Ltac solve_ops :=
  first
    [ exists []; split; [done | intros _; constructor]
    | eexists [NodeCache.OpGet _ _]; split; [done | intros _; repeat constructor]
    | eexists [NodeCache.OpGet _ _; NodeCache.OpSet _ _ _];
      split; [done | intros _; repeat constructor]
    | eexists [NodeCache.OpSet _ _ _]; split; [done | intros _; repeat constructor]
    | exists [NodeCache.OpFlushAll]; split; [done | discriminate]
    | eexists [NodeCache.OpSweep _]; split; [done | intros _; repeat constructor] ].

(** [getAIResponse] touches the cache through [get] and [set] only. *)
Lemma after_lookup_ops cfg key now c :
  after_lookup cfg key now c = c
  \/ after_lookup cfg key now c = (NodeCache.get key now c).2.
Proof. unfold after_lookup. destruct (ENABLE_CACHING (FEATURES cfg)); auto. Qed.

(** Serving a request changes the cache by a sequence of its operations,
    and only POST /api/cache/clear flushes it. *)
Lemma serve_cache_ops cfg w r :
  exists ops,
    cache (serve cfg w r) = NodeCache.run (cache w) ops
    /\ (is_cache_clear r = false ->
        Forall (fun o => NodeCache.is_flush o = false) ops).
Proof.
  destruct r as [| | | | reason | msg env | body env | body | body env | | env | now];
    unfold serve, handler.
  - unfold setupWhatsAppClient. exec. solve_ops.
  - unfold onQr. exec. solve_ops.
  - unfold onReady. exec. solve_ops.
  - unfold onAuthenticated. exec. solve_ops.
  - unfold onDisconnected. exec. solve_ops.
  - destruct (String.eqb (msg_from msg) "status@broadcast" || msg_fromMe msg)
      eqn:Hskip; unfold onMessage; rewrite Hskip.
    + exec. solve_ops.
    + fold (onMessage cfg msg env). onMessage_cases cfg msg env w;
        destruct (after_lookup_ops cfg (cacheKey "whatsapp" (msg_body msg))
                    (env_now env) (cache w)) as [-> | ->];
        try destruct (ENABLE_CACHING (FEATURES cfg)); solve_ops.
  - postChat_cases cfg body env w;
      try destruct (after_lookup_ops cfg
                      (cacheKey "web" (str_of (field "message" body)))
                      (env_now env) (cache w)) as [-> | ->];
      try destruct (ENABLE_CACHING (FEATURES cfg)); solve_ops.
  - unfold postWebhook. exec. solve_ops.
  - unfold postSend. exec.
    destruct (negb (whatsappClient w) || negb (BotStatus_eqb (botStatus w) ready));
      cbn; [solve_ops |].
    destruct (negb (truthy (field "number" body))
              || negb (truthy (field "message" body))); cbn; [solve_ops |].
    destruct (field "number" body); cbn; try solve_ops.
    destruct (env_send env); cbn; [solve_ops |].
    destruct (field "message" body); cbn; solve_ops.
  - unfold postCacheClear. exec. solve_ops.
  - unfold getAnalytics. exec. solve_ops.
  - exec. solve_ops.
Qed.

Lemma served_cache_ops cfg rs :
  forall w,
    exists ops,
      cache (served cfg w rs) = NodeCache.run (cache w) ops
      /\ (Forall (fun r => is_cache_clear r = false) rs ->
          Forall (fun o => NodeCache.is_flush o = false) ops).
Proof.
  induction rs as [| r rs IH]; intros w.
  - exists []. split; [reflexivity | intros _; constructor].
  - destruct (serve_cache_ops cfg w r) as [ops1 [H1 Hq1]].
    destruct (IH (serve cfg w r)) as [ops2 [H2 Hq2]].
    exists (ops1 ++ ops2)%list. split.
    + cbn. unfold served in H2. rewrite H2, H1. symmetry. apply run_app.
    + intros Hrs. inversion Hrs as [| ? ? Hr Hrest]; subst.
      apply Forall_app. split; [apply Hq1, Hr | apply Hq2, Hrest].
Qed.

(** C8, as the code has it: the hit and miss counters that [getStats]
    reports never go down under [get], [set] and sweeps of the cache, and so
    not under any sequence of requests and chat-client events without
    POST /api/cache/clear; [flushAll], which that route calls, puts both
    back to 0. *)
Theorem cache_counters_reset_only_by_clear :
  (forall (c : NodeCache.t) (ops : list NodeCache.Op),
      Forall (fun o => NodeCache.is_flush o = false) ops ->
      (NodeCache.stat_hits (NodeCache.getStats c)
       <= NodeCache.stat_hits (NodeCache.getStats (NodeCache.run c ops)))%nat
      /\ (NodeCache.stat_misses (NodeCache.getStats c)
          <= NodeCache.stat_misses (NodeCache.getStats (NodeCache.run c ops)))%nat)
  /\ (forall (cfg : Config) (w : World) (rs : list Request),
        Forall (fun r => is_cache_clear r = false) rs ->
        (NodeCache.stat_hits (NodeCache.getStats (cache w))
         <= NodeCache.stat_hits (NodeCache.getStats (cache (served cfg w rs))))%nat
        /\ (NodeCache.stat_misses (NodeCache.getStats (cache w))
            <= NodeCache.stat_misses
                 (NodeCache.getStats (cache (served cfg w rs))))%nat)
  /\ (forall (cfg : Config) (w : World),
        NodeCache.stat_hits
          (NodeCache.getStats (cache (serve cfg w PostCacheClear))) = 0%nat
        /\ NodeCache.stat_misses
             (NodeCache.getStats (cache (serve cfg w PostCacheClear))) = 0%nat).
Proof.
  split; [| split].
  - intros c ops Hops. cbn. split; [apply run_hits | apply run_misses]; exact Hops.
  - intros cfg w rs Hrs. destruct (served_cache_ops cfg rs w) as [ops [-> Hops]].
    cbn. split; [apply run_hits | apply run_misses]; apply Hops, Hrs.
  - intros cfg w. split; reflexivity.
Qed.

Lemma cache_counters_reset_only_by_clear_witness :
  let env := sample_env (AxiosOk "Hi!") 1000 1001 in
  let w := serve config ready_world (PostChat [("message", JStr "hello")] env) in
  let rs := [PostChat [("message", JStr "hello")] env; GetAnalytics env;
             PostChat [("message", JStr "bye")] env; CacheSweep 1400] in
  (NodeCache.stat_hits (NodeCache.getStats (cache w))
   <= NodeCache.stat_hits (NodeCache.getStats (cache (served config w rs))))%nat
  /\ (NodeCache.stat_misses (NodeCache.getStats (cache w))
      <= NodeCache.stat_misses
           (NodeCache.getStats (cache (served config w rs))))%nat.
Proof.
  apply (proj1 (proj2 cache_counters_reset_only_by_clear) config
           (serve config ready_world
              (PostChat [("message", JStr "hello")]
                 (sample_env (AxiosOk "Hi!") 1000 1001)))
           [PostChat [("message", JStr "hello")]
              (sample_env (AxiosOk "Hi!") 1000 1001);
            GetAnalytics (sample_env (AxiosOk "Hi!") 1000 1001);
            PostChat [("message", JStr "bye")]
              (sample_env (AxiosOk "Hi!") 1000 1001);
            CacheSweep 1400]).
  repeat constructor.
Defined.

(** C8 as stated fails at POST /api/cache/clear: after one miss and one hit
    the counters stand at 1 and 1, and after the clear at 0 and 0. *)
Lemma cache_clear_resets_counters :
  let env := sample_env (AxiosOk "Hi!") 1000 1001 in
  let w := served config ready_world
             [PostChat [("message", JStr "hello")] env;
              PostChat [("message", JStr "hello")] env] in
  NodeCache.stat_hits (NodeCache.getStats (cache w)) = 1%nat
  /\ NodeCache.stat_misses (NodeCache.getStats (cache w)) = 1%nat
  /\ NodeCache.stat_hits
       (NodeCache.getStats (cache (serve config w PostCacheClear))) = 0%nat
  /\ NodeCache.stat_misses
       (NodeCache.getStats (cache (serve config w PostCacheClear))) = 0%nat.
Proof. vm_compute. repeat split. Qed.

(** What GET /api/analytics reports before and after the clear. *)
Example analytics_after_clear :
  let env := sample_env (AxiosOk "Hi!") 1000 1001 in
  let w := served config ready_world
             [PostChat [("message", JStr "hello")] env;
              PostChat [("message", JStr "hello")] env] in
  responses (run (getAnalytics env) w).2
  = [(200, [("totalUsers", JNum 0); ("uptime", JNum 60);
            ("cacheHits", JNum 1); ("cacheMisses", JNum 1);
            ("botStatus", JStr "ready");
            ("timestamp", JStr "2025-01-01T00:00:00.000Z")])]
  /\ responses (run (getAnalytics env) (serve config w PostCacheClear)).2
     = [(200, [("totalUsers", JNum 0); ("uptime", JNum 60);
               ("cacheHits", JNum 0); ("cacheMisses", JNum 0);
               ("botStatus", JStr "ready");
               ("timestamp", JStr "2025-01-01T00:00:00.000Z")])].
Proof. vm_compute. split; reflexivity. Qed.

(** The TTL of the cache is the configured one for as long as the process
    runs. *)
Lemma run_stdTTL ops :
  forall c, NodeCache.stdTTL (NodeCache.run c ops) = NodeCache.stdTTL c.
Proof.
  induction ops as [| o ops IH]; intros c; [reflexivity |].
  change (NodeCache.run c (o :: ops))
    with (NodeCache.run (NodeCache.apply c o) ops).
  rewrite IH. destruct o; cbn; try reflexivity. apply get_stdTTL.
Qed.

Lemma served_stdTTL cfg rs :
  NodeCache.stdTTL (cache (served cfg (initial_world cfg) rs)) = TTL (CACHE cfg).
Proof.
  destruct (served_cache_ops cfg rs (initial_world cfg)) as [ops [-> _]].
  rewrite run_stdTTL. reflexivity.
Qed.


(** * Further properties of the handlers *)

(** ** What each request does to the module state *)

(** Split a run of [postSend] into its ways through the guards, the call
    of [sendMessage] and the log line after the response. *)
Ltac postSend_cases body env w :=
  unfold postSend; exec;
  destruct (negb (whatsappClient w) || negb (BotStatus_eqb (botStatus w) ready))
    eqn:Hready; cbn;
  [| destruct (negb (truthy (field "number" body))
               || negb (truthy (field "message" body))) eqn:Hpresent; cbn;
     [| destruct (field "number" body) as [| | nb | nn | number |] eqn:Hnumber;
        cbn;
        try (destruct (env_send env) as [send_err |] eqn:Hsend; cbn;
             [| destruct (field "message" body) as [| | mb | mn | text |]
                  eqn:Hmessage; cbn ]) ] ].

(** Split the run of any handler into its paths. *)
Ltac serve_cases cfg w r :=
  destruct r as [| | | | reason | msg env | body env | body | body env | | env | now];
  unfold serve, handler;
  [ unfold setupWhatsAppClient; exec
  | unfold onQr; exec
  | unfold onReady; exec
  | unfold onAuthenticated; exec
  | unfold onDisconnected; exec
  | destruct (String.eqb (msg_from msg) "status@broadcast" || msg_fromMe msg)
      eqn:Hskip; unfold onMessage; rewrite Hskip;
    [ exec | fold (onMessage cfg msg env); onMessage_cases cfg msg env w ]
  | postChat_cases cfg body env w
  | unfold postWebhook; exec
  | postSend_cases body env w
  | unfold postCacheClear; exec
  | unfold getAnalytics; exec
  | exec ].

Lemma serve_botStatus cfg w r :
  botStatus (serve cfg w r)
  = match r with
    | ClientQr => waiting_for_qr
    | ClientReady => ready
    | ClientAuthenticated => authenticated
    | ClientDisconnected _ => disconnected
    | _ => botStatus w
    end.
Proof. serve_cases cfg w r; reflexivity. Qed.

Lemma serve_whatsappClient cfg w r :
  whatsappClient (serve cfg w r)
  = match r with
    | Setup => true
    | _ => whatsappClient w
    end.
Proof. serve_cases cfg w r; reflexivity. Qed.

Lemma serve_connectedUsers cfg w r :
  connectedUsers (serve cfg w r) = senders [r] ∪ connectedUsers w.
Proof.
  serve_cases cfg w r; unfold skipped; try rewrite Hskip;
    rewrite ?(right_id_L ∅ (∪)), ?(left_id_L ∅ (∪)); reflexivity.
Qed.

Lemma served_cons cfg w r rs :
  served cfg w (r :: rs) = served cfg (serve cfg w r) rs.
Proof. reflexivity. Qed.

(** ** The connection status *)

Lemma served_status cfg rs :
  forall w,
    botStatus (served cfg w rs) = fold_left status_after rs (botStatus w)
    /\ (whatsappClient w = true -> whatsappClient (served cfg w rs) = true).
Proof.
  induction rs as [| r rs IH]; intros w; [split; auto |].
  rewrite served_cons. destruct (IH (serve cfg w r)) as [Hst Hcl].
  rewrite serve_botStatus in Hst. rewrite serve_whatsappClient in Hcl.
  split.
  - rewrite Hst. cbn. destruct r; reflexivity.
  - intros Hw. apply Hcl. destruct r; auto.
Qed.

(** X1: the connection status after any sequence of requests is decided by
    the chat client's status events alone, in their order; and the client
    variable, once set by [setupWhatsAppClient], is never reset. *)
Theorem botStatus_follows_status_events cfg rs w :
  botStatus (served cfg w rs) = fold_left status_after rs (botStatus w)
  /\ (whatsappClient w = true -> whatsappClient (served cfg w rs) = true).
Proof. apply served_status. Qed.

Lemma botStatus_follows_status_events_witness :
  whatsappClient
    (served config ready_world
       [ClientDisconnected "NAVIGATION"; PostCacheClear; ClientQr]) = true.
Proof.
  apply (proj2 (botStatus_follows_status_events config
                  [ClientDisconnected "NAVIGATION"; PostCacheClear; ClientQr]
                  ready_world)).
  reflexivity.
Defined.

Lemma not_ready_persists cfg rs :
  forall w,
    botStatus w <> ready ->
    Forall (fun r => is_ready_event r = false) rs ->
    botStatus (served cfg w rs) <> ready.
Proof.
  induction rs as [| r rs IH]; intros w Hw Hrs; [exact Hw |].
  inversion Hrs as [| ? ? Hr Hrest]; subst.
  rewrite served_cons. apply IH; [| exact Hrest].
  rewrite serve_botStatus. destruct r; try exact Hw; discriminate.
Qed.

(** X2: from a state whose status is not [ready], and for as long as no
    [ready] event arrives, POST /api/send answers 503 and dispatches nothing,
    whatever else is served in between. *)
Theorem send_refused_until_ready cfg w rs body env :
  botStatus w <> ready ->
  Forall (fun r => is_ready_event r = false) rs ->
  let '(o, w', tr) := run (postSend body env) (served cfg w rs) in
  responses tr = [(503, [("error", JStr "WhatsApp bot not ready")])]
  /\ List.filter is_send tr = [].
Proof.
  intros Hw Hrs.
  rewrite (postSend_not_ready_run body env (served cfg w rs)).
  - split; reflexivity.
  - right. apply not_ready_persists; assumption.
Qed.

Lemma send_refused_until_ready_witness :
  let '(o, w', tr) :=
    run (postSend [("number", JStr "15551234567"); ("message", JStr "hi")]
           (sample_env (AxiosOk "Hi!") 1000 1001))
      (served config (serve config ready_world (ClientDisconnected "LOGOUT"))
         [ClientQr; ClientAuthenticated; PostCacheClear]) in
  responses tr = [(503, [("error", JStr "WhatsApp bot not ready")])]
  /\ List.filter is_send tr = [].
Proof.
  apply (send_refused_until_ready config
           (serve config ready_world (ClientDisconnected "LOGOUT"))
           [ClientQr; ClientAuthenticated; PostCacheClear]
           [("number", JStr "15551234567"); ("message", JStr "hi")]
           (sample_env (AxiosOk "Hi!") 1000 1001)).
  - cbn. discriminate.
  - repeat constructor.
Defined.

(** ** The active-user set over time *)

Lemma senders_cons r rs : senders (r :: rs) = senders [r] ∪ senders rs.
Proof.
  destruct r; cbn;
    try (rewrite (left_id_L ∅ (∪)); reflexivity).
  destruct (skipped msg);
    rewrite ?(right_id_L ∅ (∪)), ?(left_id_L ∅ (∪)); reflexivity.
Qed.

Lemma served_users cfg rs :
  forall w, connectedUsers (served cfg w rs) = senders rs ∪ connectedUsers w.
Proof.
  induction rs as [| r rs IH]; intros w.
  - cbn. rewrite (left_id_L ∅ (∪)). reflexivity.
  - rewrite served_cons, IH, serve_connectedUsers, (senders_cons r rs).
    rewrite (assoc_L (∪)), (comm_L (∪) (senders rs)). reflexivity.
Qed.

(** X3: after any sequence of requests the active-user set is the set it
    started from together with the senders of the chat-client messages that
    were not skipped: nothing else adds a user and nothing removes one. *)
Theorem active_users_are_senders cfg rs w :
  connectedUsers (served cfg w rs) = senders rs ∪ connectedUsers w.
Proof. apply served_users. Qed.

Lemma senders_not_status rs : "status@broadcast" ∉ senders rs.
Proof.
  induction rs as [| r rs IH]; [apply not_elem_of_empty |].
  destruct r; cbn; try exact IH.
  destruct (skipped msg) eqn:Hskip; [exact IH |].
  unfold skipped in Hskip. apply orb_false_iff in Hskip as [Hfrom _].
  apply String.eqb_neq in Hfrom.
  intros Hin. apply elem_of_union in Hin as [Hin | Hin]; [| exact (IH Hin)].
  apply elem_of_singleton in Hin. congruence.
Qed.

(** X4: from process start, [status@broadcast] is never an active user. *)
Theorem status_broadcast_never_active cfg rs :
  "status@broadcast" ∉ connectedUsers (served cfg (initial_world cfg) rs).
Proof.
  rewrite served_users. cbn.
  rewrite (right_id_L ∅ (∪)). apply senders_not_status.
Qed.

(** ** One request, one response *)

(** X5: every route writes exactly one response, on every path through it;
    the chat client's events write none. *)
Theorem one_response_per_route cfg w r :
  length (responses (run (handler cfg r) w).2)
  = if is_route r then 1%nat else 0%nat.
Proof. serve_cases cfg w r; reflexivity. Qed.

(** X6: a request never invokes the completion client more than once, and
    only a chat-client message or POST /api/chat invokes it at all. *)
Theorem at_most_one_completion_call cfg w r :
  (completion_calls (run (handler cfg r) w).2 <= 1)%nat
  /\ (enters_pipeline r = false ->
      completion_calls (run (handler cfg r) w).2 = 0%nat).
Proof.
  serve_cases cfg w r; cbn; split; try lia; try reflexivity; discriminate.
Qed.

Lemma at_most_one_completion_call_witness :
  completion_calls
    (run (handler config
            (PostSend [("number", JStr "15551234567"); ("message", JStr "hi")]
               (sample_env (AxiosOk "Hi!") 1000 1001))) ready_world).2
  = 0%nat.
Proof.
  apply (proj2 (at_most_one_completion_call config ready_world
                  (PostSend [("number", JStr "15551234567"); ("message", JStr "hi")]
                     (sample_env (AxiosOk "Hi!") 1000 1001)))).
  reflexivity.
Defined.

(** X7: POST /api/webhook, POST /api/send and GET /api/analytics leave the
    module state exactly as it was, on every path. *)
Theorem passive_routes_keep_state cfg w r :
  is_passive_route r = true -> serve cfg w r = w.
Proof.
  intros Hr. serve_cases cfg w r; try discriminate; reflexivity.
Qed.

Lemma passive_routes_keep_state_witness :
  serve config ready_world
    (PostSend [("number", JStr "15551234567"); ("message", JStr "hi")]
       send_fails_env)
  = ready_world.
Proof.
  apply (passive_routes_keep_state config ready_world
           (PostSend [("number", JStr "15551234567"); ("message", JStr "hi")]
              send_fails_env)).
  reflexivity.
Defined.

(** X8: no handler ends with an uncaught error, except POST /api/send when
    its [message] is not a string: the chat-client handler and every other
    route catch what the completion call and the chat client throw (the
    completion API's reply being a text, as [AxiosOk] has it). *)
Theorem handlers_catch_their_errors cfg w r :
  (forall body env, r = PostSend body env ->
                    is_string (field "message" body) = true) ->
  (run (handler cfg r) w).1.1 = Returned tt.
Proof.
  intros Hstring. serve_cases cfg w r; try reflexivity;
    specialize (Hstring body env eq_refl); rewrite Hmessage in Hstring;
    discriminate.
Qed.

Lemma handlers_catch_their_errors_witness :
  (run (handler config
          (ClientMessage {| msg_from := "4915112345678@c.us"; msg_fromMe := false;
                            msg_body := "hello" |} send_fails_env))
     ready_world).1.1
  = Returned tt.
Proof.
  apply (handlers_catch_their_errors config ready_world
           (ClientMessage {| msg_from := "4915112345678@c.us"; msg_fromMe := false;
                             msg_body := "hello" |} send_fails_env)).
  intros body env H. discriminate.
Defined.

(** ** POST /api/send, past the readiness test *)

Lemma ready_guard w :
  whatsappClient w = true -> botStatus w = ready ->
  negb (whatsappClient w) || negb (BotStatus_eqb (botStatus w) ready) = false.
Proof. intros -> ->. reflexivity. Qed.

(** X9: with the bot ready, a request whose [number] or [message] is
    missing, null, empty, zero or false is answered 400 and nothing is
    dispatched. *)
Theorem postSend_missing_fields body env w :
  whatsappClient w = true ->
  botStatus w = ready ->
  truthy (field "number" body) = false \/ truthy (field "message" body) = false ->
  run (postSend body env) w
  = (Returned tt, w,
     [EResponse 400 [("error", JStr "Number and message are required")]]).
Proof.
  intros Hc Hst Hmissing. unfold postSend. exec.
  rewrite (ready_guard w Hc Hst). cbn.
  assert (negb (truthy (field "number" body))
          || negb (truthy (field "message" body)) = true) as ->.
  { destruct Hmissing as [-> | ->]; [reflexivity | apply orb_true_r]. }
  reflexivity.
Qed.

Lemma postSend_missing_fields_witness :
  run (postSend [("number", JStr "15551234567"); ("message", JStr "")]
         (sample_env (AxiosOk "Hi!") 1000 1001)) ready_world
  = (Returned tt, ready_world,
     [EResponse 400 [("error", JStr "Number and message are required")]]).
Proof.
  apply (postSend_missing_fields
           [("number", JStr "15551234567"); ("message", JStr "")]
           (sample_env (AxiosOk "Hi!") 1000 1001) ready_world).
  - reflexivity.
  - reflexivity.
  - right. reflexivity.
Defined.

(** X10: with the bot ready, a [number] that is present but not a string (a
    JSON number, [true], an object) makes [number.includes] throw before
    anything is dispatched; the request is answered 500 with that error's
    text. *)
Theorem postSend_number_not_a_string body env w :
  whatsappClient w = true ->
  botStatus w = ready ->
  truthy (field "number" body) = true ->
  is_string (field "number" body) = false ->
  truthy (field "message" body) = true ->
  run (postSend body env) w
  = (Returned tt, w,
     [ELog error ["Send message error:"; "number.includes is not a function"];
      EResponse 500 [("success", JBool false);
                     ("error", JStr "number.includes is not a function")]]).
Proof.
  intros Hc Hst Hn Hs Hm. unfold postSend. exec.
  rewrite (ready_guard w Hc Hst), Hn, Hm. cbn.
  destruct (field "number" body); try discriminate; reflexivity.
Qed.

Lemma postSend_number_not_a_string_witness :
  run (postSend [("number", JNum 15551234567); ("message", JStr "hi")]
         (sample_env (AxiosOk "Hi!") 1000 1001)) ready_world
  = (Returned tt, ready_world,
     [ELog error ["Send message error:"; "number.includes is not a function"];
      EResponse 500 [("success", JBool false);
                     ("error", JStr "number.includes is not a function")]]).
Proof.
  apply (postSend_number_not_a_string
           [("number", JNum 15551234567); ("message", JStr "hi")]
           (sample_env (AxiosOk "Hi!") 1000 1001) ready_world);
    reflexivity.
Defined.

(** X11: with the bot ready, a string [number] and a string [message], the
    answer follows the chat client: 200 when [sendMessage] returns, and 500
    with the thrown error's own message when it throws; the message is
    handed to the chat client exactly once either way. *)
Theorem postSend_answer_follows_delivery body env w number text :
  whatsappClient w = true ->
  botStatus w = ready ->
  field "number" body = JStr number -> number <> "" ->
  field "message" body = JStr text -> text <> "" ->
  let '(o, w', tr) := run (postSend body env) w in
  List.filter is_send tr = [ESendMessage (formatNumber number) (JStr text)]
  /\ responses tr
     = match env_send env with
       | None => [(200, [("success", JBool true);
                         ("message", JStr "Message sent successfully")])]
       | Some err => [(500, [("success", JBool false);
                             ("error", JStr (err_message err))])]
       end.
Proof.
  intros Hc Hst Hn Hne Hm Hte. unfold postSend. exec.
  rewrite (ready_guard w Hc Hst), Hn, Hm. cbn.
  rewrite (is_empty_false number Hne), (is_empty_false text Hte). cbn.
  destruct (env_send env); cbn; split; reflexivity.
Qed.

Lemma postSend_answer_follows_delivery_witness :
  let '(o, w', tr) :=
    run (postSend [("number", JStr "120363025@g.us"); ("message", JStr "hi")]
           send_fails_env) ready_world in
  List.filter is_send tr
  = [ESendMessage (formatNumber "120363025@g.us") (JStr "hi")]
  /\ responses tr
     = match env_send send_fails_env with
       | None => [(200, [("success", JBool true);
                         ("message", JStr "Message sent successfully")])]
       | Some err => [(500, [("success", JBool false);
                             ("error", JStr (err_message err))])]
       end.
Proof.
  apply (postSend_answer_follows_delivery
           [("number", JStr "120363025@g.us"); ("message", JStr "hi")]
           send_fails_env ready_world "120363025@g.us" "hi");
    try reflexivity; discriminate.
Defined.

(** X12: with the bot ready and a string [number], a [message] that is
    present but not a string is still handed to the chat client and, when
    that succeeds, answered 200; the log line after the response then
    throws, the [catch] cannot answer a second time, and the handler ends
    with ERR_HTTP_HEADERS_SENT uncaught. *)
Theorem postSend_message_not_a_string body env w number :
  whatsappClient w = true ->
  botStatus w = ready ->
  field "number" body = JStr number -> number <> "" ->
  truthy (field "message" body) = true ->
  is_string (field "message" body) = false ->
  env_send env = None ->
  run (postSend body env) w
  = (Thrown (mkError "Cannot set headers after they are sent to the client"
               (Some "ERR_HTTP_HEADERS_SENT")),
     w,
     [ESendMessage (formatNumber number) (field "message" body);
      EResponse 200 [("success", JBool true);
                     ("message", JStr "Message sent successfully")];
      ELog error ["Send message error:"; "message.substring is not a function"]]).
Proof.
  intros Hc Hst Hn Hne Hm Hs Hsend. unfold postSend. exec.
  rewrite (ready_guard w Hc Hst), Hn, Hm, Hsend. cbn.
  rewrite (is_empty_false number Hne). cbn.
  destruct (field "message" body); try discriminate; reflexivity.
Qed.

Lemma postSend_message_not_a_string_witness :
  run (postSend [("number", JStr "15551234567"); ("message", JNum 42)]
         (sample_env (AxiosOk "Hi!") 1000 1001)) ready_world
  = (Thrown (mkError "Cannot set headers after they are sent to the client"
               (Some "ERR_HTTP_HEADERS_SENT")),
     ready_world,
     [ESendMessage (formatNumber "15551234567") (JNum 42);
      EResponse 200 [("success", JBool true);
                     ("message", JStr "Message sent successfully")];
      ELog error ["Send message error:"; "message.substring is not a function"]]).
Proof.
  apply (postSend_message_not_a_string
           [("number", JStr "15551234567"); ("message", JNum 42)]
           (sample_env (AxiosOk "Hi!") 1000 1001) ready_world "15551234567");
    try reflexivity; discriminate.
Defined.

(** ** The pipeline, path by path *)

(** X13: with caching on, a non-empty value found in the cache is returned
    as it is: the completion client is not invoked and nothing is written
    to the cache; the lookup is the only cache operation. *)
Theorem getAIResponse_cache_hit cfg message platform env w v :
  ENABLE_CACHING (FEATURES cfg) = true ->
  (NodeCache.get (cacheKey platform message) (env_now env) (cache w)).1 = Some v ->
  v <> "" ->
  run (getAIResponse cfg message platform env) w
  = (Returned v,
     with_cache w
       (NodeCache.get (cacheKey platform message) (env_now env) (cache w)).2,
     [ELog info ["Cache hit for AI response"]]).
Proof.
  intros Hon Hget Hne. unfold run. rewrite getAIResponse_run. cbn.
  unfold cached_reply, after_lookup. rewrite Hon, Hget.
  rewrite (is_empty_false v Hne). reflexivity.
Qed.

Lemma getAIResponse_cache_hit_witness :
  let w := serve config ready_world
             (PostChat [("message", JStr "hello")]
                (sample_env (AxiosOk "Hi!") 1000 1001)) in
  let env := sample_env (AxiosFail refused) 1100 1101 in
  run (getAIResponse config "hello" "web" env) w
  = (Returned "Hi!",
     with_cache w (NodeCache.get (cacheKey "web" "hello") (env_now env) (cache w)).2,
     [ELog info ["Cache hit for AI response"]]).
Proof.
  apply (getAIResponse_cache_hit config "hello" "web"
           (sample_env (AxiosFail refused) 1100 1101)
           (serve config ready_world
              (PostChat [("message", JStr "hello")]
                 (sample_env (AxiosOk "Hi!") 1000 1001)))
           "Hi!").
  - reflexivity.
  - vm_compute. reflexivity.
  - discriminate.
Defined.

(** X14: with caching off, [getAIResponse] never touches the cache: every
    call invokes the completion client exactly once and leaves the module
    state as it was. *)
Theorem getAIResponse_without_caching cfg message platform env w :
  ENABLE_CACHING (FEATURES cfg) = false ->
  let '(o, w', tr) := run (getAIResponse cfg message platform env) w in
  w' = w /\ completion_calls tr = 1%nat.
Proof.
  intros Hoff. unfold run. rewrite getAIResponse_run. cbn.
  unfold cached_reply, after_lookup. rewrite Hoff.
  destruct w as [cl st us c].
  destruct (env_axios env); cbn; split; reflexivity.
Qed.

(** The configuration of [config.js] with the caching flag off. *)
Lemma getAIResponse_without_caching_witness :
  let cfg := {| AI := AI config; CACHE := CACHE config;
                FEATURES := {| ENABLE_LOGGING := true; ENABLE_CACHING := false;
                               ENABLE_RATE_LIMITING := true; ENABLE_CORS := true;
                               ENABLE_COMPRESSION := true;
                               ENABLE_SECURITY_HEADERS := true |};
                MESSAGES := MESSAGES config |} in
  let '(o, w', tr) :=
    run (getAIResponse cfg "hello" "web" (sample_env (AxiosOk "Hi!") 1000 1001))
      ready_world in
  w' = ready_world /\ completion_calls tr = 1%nat.
Proof.
  apply (getAIResponse_without_caching
           {| AI := AI config; CACHE := CACHE config;
              FEATURES := {| ENABLE_LOGGING := true; ENABLE_CACHING := false;
                             ENABLE_RATE_LIMITING := true; ENABLE_CORS := true;
                             ENABLE_COMPRESSION := true;
                             ENABLE_SECURITY_HEADERS := true |};
              MESSAGES := MESSAGES config |}
           "hello" "web" (sample_env (AxiosOk "Hi!") 1000 1001) ready_world).
  reflexivity.
Defined.

(** X15: when the completion call fails, [getAIResponse] throws the
    configured timeout message if the error's code is ECONNABORTED and the
    configured generic message otherwise, logs the error's own text, and
    writes nothing to the cache. *)
Theorem getAIResponse_failure cfg message platform env w e :
  env_axios env = AxiosFail e ->
  completion_calls (run (getAIResponse cfg message platform env) w).2 = 1%nat ->
  let '(o, w', tr) := run (getAIResponse cfg message platform env) w in
  o = Thrown (Error (if bool_decide (err_code e = Some "ECONNABORTED")
                     then ERROR_AI_TIMEOUT (MESSAGES cfg)
                     else ERROR_GENERIC (MESSAGES cfg)))
  /\ logged error tr = [["AI API Error:"; err_message e]]
  /\ (cache w' = cache w
      \/ cache w'
         = (NodeCache.get (cacheKey platform message) (env_now env) (cache w)).2).
Proof.
  intros Hfail. unfold run. rewrite getAIResponse_run. cbn.
  destruct (cached_reply cfg (cacheKey platform message) (env_now env) (cache w));
    cbn; [discriminate |].
  rewrite Hfail. cbn. intros _. unfold translated.
  split; [destruct (bool_decide (err_code e = Some "ECONNABORTED")); reflexivity |].
  split; [reflexivity |]. apply after_lookup_ops.
Qed.

Lemma getAIResponse_failure_witness :
  let env := sample_env (AxiosFail (mkError "timeout of 30000ms exceeded"
                                      (Some "ECONNABORTED"))) 1000 1031 in
  let '(o, w', tr) := run (getAIResponse config "hello" "web" env) ready_world in
  o = Thrown (Error (if bool_decide (Some "ECONNABORTED" = Some "ECONNABORTED")
                     then ERROR_AI_TIMEOUT (MESSAGES config)
                     else ERROR_GENERIC (MESSAGES config)))
  /\ logged error tr = [["AI API Error:"; "timeout of 30000ms exceeded"]]
  /\ (cache w' = cache ready_world
      \/ cache w'
         = (NodeCache.get (cacheKey "web" "hello") (env_now env)
              (cache ready_world)).2).
Proof.
  apply (getAIResponse_failure config "hello" "web"
           (sample_env (AxiosFail (mkError "timeout of 30000ms exceeded"
                                     (Some "ECONNABORTED"))) 1000 1031)
           ready_world
           (mkError "timeout of 30000ms exceeded" (Some "ECONNABORTED"))).
  - reflexivity.
  - vm_compute. reflexivity.
Defined.

(** X16: whatever the completion client is asked, it is asked at the
    configured URL for the configured model, with the message text exactly
    as it came and the system prompt of the entry point: [web] for
    POST /api/chat, [whatsapp] for a chat-client message. *)
Theorem completion_request_content cfg w r url model systemPrompt message :
  In (EAxiosPost url model systemPrompt message) (run (handler cfg r) w).2 ->
  url = API_URL (AI cfg)
  /\ model = MODEL (AI cfg)
  /\ ((exists body env, r = PostChat body env
                        /\ field "message" body = JStr message
                        /\ systemPrompt
                           = systemPromptFor (SYSTEM_PROMPTS (AI cfg)) "web")
      \/ (exists msg env, r = ClientMessage msg env
                          /\ msg_body msg = message
                          /\ systemPrompt
                             = systemPromptFor (SYSTEM_PROMPTS (AI cfg)) "whatsapp")).
Proof.
  serve_cases cfg w r; cbn; intros Hin;
    repeat (destruct Hin as [Hin | Hin]; try discriminate);
    try contradiction;
    inversion Hin; subst; (split; [reflexivity |]); (split; [reflexivity |]).
  all: try (right; do 2 eexists; repeat split; reflexivity).
  all: left; exists body, env; repeat split;
    apply orb_false_iff in Hguard as [_ Hs]; apply negb_false_iff in Hs;
    destruct (field "message" body); try discriminate; reflexivity.
Qed.

Lemma completion_request_content_witness :
  API_URL (AI config) = API_URL (AI config)
  /\ MODEL (AI config) = MODEL (AI config)
  /\ ((exists body env,
          PostChat [("message", JStr "hello")]
            (sample_env (AxiosOk "Hi!") 1000 1001) = PostChat body env
          /\ field "message" body = JStr "hello"
          /\ systemPromptFor (SYSTEM_PROMPTS (AI config)) "web"
             = systemPromptFor (SYSTEM_PROMPTS (AI config)) "web")
      \/ (exists msg env,
             PostChat [("message", JStr "hello")]
               (sample_env (AxiosOk "Hi!") 1000 1001) = ClientMessage msg env
             /\ msg_body msg = "hello"
             /\ systemPromptFor (SYSTEM_PROMPTS (AI config)) "web"
                = systemPromptFor (SYSTEM_PROMPTS (AI config)) "whatsapp")).
Proof.
  apply (completion_request_content config ready_world
           (PostChat [("message", JStr "hello")]
              (sample_env (AxiosOk "Hi!") 1000 1001))
           (API_URL (AI config)) (MODEL (AI config))
           (systemPromptFor (SYSTEM_PROMPTS (AI config)) "web") "hello").
  vm_compute. right. left. reflexivity.
Defined.

(** ** What the two entry points answer *)

(** X17: a 200 of POST /api/chat carries [success: true], the text that
    [getAIResponse] returned for the message on platform [web], the time
    stamp, and the request's [sessionId], or ['anonymous'] when that is
    missing, null or empty. *)
Theorem postChat_success_body cfg body env w b :
  In (200, b) (responses (run (postChat cfg body env) w).2) ->
  field "success" b = JBool true
  /\ field "timestamp" b = JStr (env_timestamp env)
  /\ field "sessionId" b = js_or (field "sessionId" body) (JStr "anonymous")
  /\ exists text reply,
       field "message" body = JStr text
       /\ (run (getAIResponse cfg text "web" env) w).1.1 = Returned reply
       /\ field "reply" b = JStr reply.
Proof.
  unfold postChat. exec.
  destruct (negb (truthy (field "message" body))
            || negb (is_string (field "message" body))) eqn:Hguard; cbn;
    [intros [H | []]; discriminate |].
  apply orb_false_iff in Hguard as [_ Hs]. apply negb_false_iff in Hs.
  destruct (field "message" body) as [| | | | text |] eqn:Hm; try discriminate.
  cbn. destruct (2000 <? String.length text)%nat; cbn;
    [intros [H | []]; discriminate |].
  rewrite getAIResponse_run. cbn.
  destruct (cached_reply cfg (cacheKey "web" text) (env_now env) (cache w))
    as [cached |] eqn:Hcached; cbn;
    [| destruct (env_axios env) as [content | failure] eqn:Haxios; cbn ];
    intros [H | []]; inversion H; subst b; cbn;
    do 3 (split; [reflexivity |]);
    exists text; eexists; (split; [reflexivity |]);
    unfold run; rewrite getAIResponse_run; cbn;
    rewrite Hcached; try rewrite Haxios; cbn; split; reflexivity.
Qed.

Lemma postChat_success_body_witness :
  let body := [("message", JStr "hello"); ("sessionId", JStr "")] in
  let env := sample_env (AxiosOk "Hi!") 1000 1001 in
  let b := [("success", JBool true); ("reply", JStr "Hi!");
            ("timestamp", JStr "2025-01-01T00:00:00.000Z");
            ("sessionId", JStr "anonymous")] in
  field "success" b = JBool true
  /\ field "timestamp" b = JStr (env_timestamp env)
  /\ field "sessionId" b = js_or (field "sessionId" body) (JStr "anonymous")
  /\ exists text reply,
       field "message" body = JStr text
       /\ (run (getAIResponse config text "web" env) ready_world).1.1
          = Returned reply
       /\ field "reply" b = JStr reply.
Proof.
  apply (postChat_success_body config
           [("message", JStr "hello"); ("sessionId", JStr "")]
           (sample_env (AxiosOk "Hi!") 1000 1001) ready_world
           [("success", JBool true); ("reply", JStr "Hi!");
            ("timestamp", JStr "2025-01-01T00:00:00.000Z");
            ("sessionId", JStr "anonymous")]).
  vm_compute. left. reflexivity.
Defined.

(** X18: the replies to a chat-client message that is not skipped.  When
    [getAIResponse] returns a text, the sender gets that text; if delivering
    it throws, a second reply with the generic message is attempted.  When
    [getAIResponse] throws, the only reply is the generic message.  Every
    reply goes to the sender, and there are never more than two. *)
Theorem onMessage_replies cfg msg env w :
  skipped msg = false ->
  List.filter is_reply (run (onMessage cfg msg env) w).2
  = match (run (getAIResponse cfg (msg_body msg) "whatsapp" env) w).1.1 with
    | Returned aiReply =>
        match env_reply env with
        | None => [EReply (msg_from msg) aiReply]
        | Some _ => [EReply (msg_from msg) aiReply;
                     EReply (msg_from msg) (ERROR_GENERIC (MESSAGES cfg))]
        end
    | Thrown _ => [EReply (msg_from msg) (ERROR_GENERIC (MESSAGES cfg))]
    end.
Proof.
  intros Hskip. unfold skipped in Hskip. unfold onMessage. rewrite Hskip.
  exec. rewrite !getAIResponse_run. cbn.
  destruct (cached_reply cfg (cacheKey "whatsapp" (msg_body msg)) (env_now env)
              (cache w)) as [cached |]; cbn;
    [| destruct (env_axios env) as [content | failure]; cbn ];
    destruct (env_reply env) as [reply_failure |]; cbn;
    destruct (env_reply_error env) as [apology_failure |]; cbn;
    reflexivity.
Qed.

Lemma onMessage_replies_witness :
  let msg := {| msg_from := "4915112345678@c.us"; msg_fromMe := false;
                msg_body := "hello" |} in
  List.filter is_reply (run (onMessage config msg send_fails_env) ready_world).2
  = match (run (getAIResponse config (msg_body msg) "whatsapp" send_fails_env)
             ready_world).1.1 with
    | Returned aiReply =>
        match env_reply send_fails_env with
        | None => [EReply (msg_from msg) aiReply]
        | Some _ => [EReply (msg_from msg) aiReply;
                     EReply (msg_from msg) (ERROR_GENERIC (MESSAGES config))]
        end
    | Thrown _ => [EReply (msg_from msg) (ERROR_GENERIC (MESSAGES config))]
    end.
Proof.
  apply (onMessage_replies config
           {| msg_from := "4915112345678@c.us"; msg_fromMe := false;
              msg_body := "hello" |} send_fails_env ready_world).
  reflexivity.
Defined.

(** X19: the chat-client handler has no check on the body: a message that
    is not skipped and has no accepted cache entry is sent to the completion
    client exactly as it is, whether empty or of any length. *)
Theorem onMessage_asks_for_any_body cfg msg env w :
  skipped msg = false ->
  cached_reply cfg (cacheKey "whatsapp" (msg_body msg)) (env_now env) (cache w)
  = None ->
  List.filter is_axios (run (onMessage cfg msg env) w).2
  = [EAxiosPost (API_URL (AI cfg)) (MODEL (AI cfg))
       (systemPromptFor (SYSTEM_PROMPTS (AI cfg)) "whatsapp") (msg_body msg)].
Proof.
  intros Hskip Hmiss. unfold skipped in Hskip. unfold onMessage. rewrite Hskip.
  exec. rewrite getAIResponse_run. cbn. rewrite Hmiss.
  destruct (env_axios env) as [content | failure]; cbn;
    destruct (env_reply env) as [reply_failure |]; cbn;
    destruct (env_reply_error env) as [apology_failure |]; cbn;
    reflexivity.
Qed.

Lemma onMessage_asks_for_any_body_witness :
  let msg := {| msg_from := "4915112345678@c.us"; msg_fromMe := false;
                msg_body := "" |} in
  List.filter is_axios
    (run (onMessage config msg (sample_env (AxiosOk "Hi!") 1000 1001))
       ready_world).2
  = [EAxiosPost (API_URL (AI config)) (MODEL (AI config))
       (systemPromptFor (SYSTEM_PROMPTS (AI config)) "whatsapp") (msg_body msg)].
Proof.
  apply (onMessage_asks_for_any_body config
           {| msg_from := "4915112345678@c.us"; msg_fromMe := false;
              msg_body := "" |}
           (sample_env (AxiosOk "Hi!") 1000 1001) ready_world).
  - reflexivity.
  - vm_compute. reflexivity.
Defined.

(** ** The shape of the cache key *)

Lemma in_range n k : (n < N.of_nat k)%N -> In n (map N.of_nat (seq 0 k)).
Proof.
  intros Hn. apply in_map_iff. exists (N.to_nat n). split; [apply N2Nat.id |].
  apply in_seq. lia.
Qed.

Lemma group_check_all :
  forallb (fun x => forallb (group_check x) all_bytes) all_bytes = true.
Proof. vm_compute. reflexivity. Qed.

Lemma digit_check_all :
  forallb (fun i => forallb (digit_check i) all_sextets) all_sextets = true.
Proof. vm_compute. reflexivity. Qed.

Lemma group_checked x y : (x < 256)%N -> (y < 256)%N -> group_check x y = true.
Proof.
  intros Hx Hy. pose proof group_check_all as H.
  rewrite forallb_forall in H. specialize (H x (in_range x 256 Hx)).
  rewrite forallb_forall in H. exact (H y (in_range y 256 Hy)).
Qed.

Lemma group_facts x y :
  (x < 256)%N -> (y < 256)%N ->
  (sextet1 x < 64)%N /\ (sextet2 x y < 64)%N
  /\ (sextet3 x y < 64)%N /\ (sextet4 x < 64)%N
  /\ N.lor (N.shiftl (sextet1 x) 2) (N.shiftr (sextet2 x y) 4) = x
  /\ N.land (sextet2 x y) 15 = N.shiftr y 4
  /\ N.shiftr (sextet3 x y) 2 = N.land x 15
  /\ N.lor (N.shiftl (N.land (sextet3 x y) 3) 6) (sextet4 y) = y
  /\ N.lor (N.shiftl (N.shiftr x 4) 4) (N.land x 15) = x.
Proof.
  intros Hx Hy. pose proof (group_checked x y Hx Hy) as H.
  unfold group_check in H.
  repeat (apply andb_true_iff in H as [H ?]).
  repeat match goal with
         | H : (_ <? _)%N = true |- _ => apply N.ltb_lt in H
         | H : (_ =? _)%N = true |- _ => apply N.eqb_eq in H
         end.
  repeat split; assumption.
Qed.

Lemma digit_checked i j :
  (i < 64)%N -> (j < 64)%N -> digit_check i j = true.
Proof.
  intros Hi Hj. pose proof digit_check_all as H.
  rewrite forallb_forall in H. specialize (H i (in_range i 64 Hi)).
  rewrite forallb_forall in H. exact (H j (in_range j 64 Hj)).
Qed.

Lemma digit_inj i j :
  (i < 64)%N -> (j < 64)%N -> Base64.digit i = Base64.digit j -> i = j.
Proof.
  intros Hi Hj Heq. pose proof (digit_checked i j Hi Hj) as H.
  unfold digit_check in H. apply andb_true_iff in H as [H _].
  rewrite Heq, Ascii.eqb_refl in H. apply N.eqb_eq, H.
Qed.

Lemma digit_not_pad i : (i < 64)%N -> Base64.digit i <> "="%char.
Proof.
  intros Hi Heq. pose proof (digit_checked i i Hi Hi) as H.
  unfold digit_check in H. apply andb_true_iff in H as [_ H].
  rewrite Heq in H. discriminate.
Qed.

(** The first byte of a group and the high half of the second, from the
    first two indices. *)
Lemma sextets12_inj x y x' y' :
  (x < 256)%N -> (y < 256)%N -> (x' < 256)%N -> (y' < 256)%N ->
  sextet1 x = sextet1 x' -> sextet2 x y = sextet2 x' y' ->
  x = x' /\ N.shiftr y 4 = N.shiftr y' 4.
Proof.
  intros Hx Hy Hx' Hy' H1 H2.
  destruct (group_facts x y Hx Hy) as (_ & _ & _ & _ & Ex & Ey & _).
  destruct (group_facts x' y' Hx' Hy') as (_ & _ & _ & _ & Ex' & Ey' & _).
  split.
  - rewrite <- Ex, <- Ex', H1, H2. reflexivity.
  - rewrite <- Ey, <- Ey', H2. reflexivity.
Qed.

(** The second and third byte of a group, from the high half of the second
    and the last two indices. *)
Lemma sextets34_inj y z y' z' :
  (y < 256)%N -> (z < 256)%N -> (y' < 256)%N -> (z' < 256)%N ->
  N.shiftr y 4 = N.shiftr y' 4 ->
  sextet3 y z = sextet3 y' z' -> sextet4 z = sextet4 z' ->
  y = y' /\ z = z'.
Proof.
  intros Hy Hz Hy' Hz' Hhigh H3 H4.
  destruct (group_facts y z Hy Hz) as (_ & _ & _ & _ & _ & _ & Elow & Ez & Ey).
  destruct (group_facts y' z' Hy' Hz') as (_ & _ & _ & _ & _ & _ & Elow' & Ez' & Ey').
  split.
  - rewrite <- Ey, <- Ey', Hhigh, <- Elow, <- Elow', H3. reflexivity.
  - rewrite <- Ez, <- Ez', H3, H4. reflexivity.
Qed.

Lemma encode_one a :
  Base64.encode [a]
  = String (Base64.digit (sextet1 a)) (String (Base64.digit (sextet2 a 0)) "==").
Proof. unfold sextet2. cbn. rewrite N.lor_0_r. reflexivity. Qed.

Lemma encode_two a b :
  Base64.encode [a; b]
  = String (Base64.digit (sextet1 a))
      (String (Base64.digit (sextet2 a b))
         (String (Base64.digit (sextet3 b 0)) "=")).
Proof. unfold sextet3. cbn. rewrite N.lor_0_r. reflexivity. Qed.

Lemma encode_three a b c rest :
  Base64.encode (a :: b :: c :: rest)
  = String (Base64.digit (sextet1 a))
      (String (Base64.digit (sextet2 a b))
         (String (Base64.digit (sextet3 b c))
            (String (Base64.digit (sextet4 c)) (Base64.encode rest)))).
Proof. reflexivity. Qed.

Lemma sextet1_lt x : (x < 256)%N -> (sextet1 x < 64)%N.
Proof. intros Hx. apply (group_facts x 0 Hx). lia. Qed.

Lemma sextet2_lt x y : (x < 256)%N -> (y < 256)%N -> (sextet2 x y < 64)%N.
Proof. intros Hx Hy. apply (group_facts x y Hx Hy). Qed.

Lemma sextet3_lt x y : (x < 256)%N -> (y < 256)%N -> (sextet3 x y < 64)%N.
Proof. intros Hx Hy. apply (group_facts x y Hx Hy). Qed.

Lemma sextet4_lt x : (x < 256)%N -> (sextet4 x < 64)%N.
Proof. intros Hx. apply (group_facts x 0 Hx). lia. Qed.

Lemma zero_is_byte : (0 < 256)%N.
Proof. lia. Qed.

Create HintDb sextets.
#[local] Hint Resolve sextet1_lt sextet2_lt sextet3_lt sextet4_lt zero_is_byte
  : sextets.

(** A digit cannot sit where the other side has padding. *)
Ltac pad_clash :=
  match goal with
  | H : Base64.digit ?i = "="%char |- _ =>
      exfalso; apply (digit_not_pad i); [auto with sextets | exact H]
  | H : "="%char = Base64.digit ?i |- _ =>
      exfalso; apply (digit_not_pad i); [auto with sextets | symmetry; exact H]
  end.

(** Equal digits of indices in range are equal indices. *)
Ltac same_sextets :=
  repeat match goal with
         | H : Base64.digit ?i = Base64.digit ?j |- _ =>
             apply digit_inj in H; [| auto with sextets | auto with sextets]
         end.

Ltac split_bytes :=
  unfold is_bytes in *;
  repeat match goal with
         | H : Forall _ (_ :: _) |- _ => apply Forall_cons_iff in H as [? H]
         end.

Lemma encode_inj_upto n :
  forall bs1 bs2,
    (length bs1 <= n)%nat -> is_bytes bs1 -> is_bytes bs2 ->
    Base64.encode bs1 = Base64.encode bs2 -> bs1 = bs2.
Proof.
  induction n as [| n IH]; intros bs1 bs2 Hlen H1 H2 Heq.
  - destruct bs1; [| cbn in Hlen; lia].
    destruct bs2 as [| a' [| b' [| c' r']]]; [reflexivity | ..];
      rewrite ?encode_one, ?encode_two, ?encode_three in Heq; discriminate.
  - destruct bs1 as [| a [| b [| c r]]]; destruct bs2 as [| a' [| b' [| c' r']]];
      rewrite ?encode_one, ?encode_two, ?encode_three in Heq;
      try reflexivity; try discriminate;
      split_bytes; inversion Heq; try pad_clash; same_sextets.
    + destruct (sextets12_inj a 0 a' 0) as [-> _]; auto with sextets.
    + destruct (sextets12_inj a b a' b') as [-> Hhigh]; auto with sextets.
      destruct (sextets34_inj b 0 b' 0) as [-> _]; auto with sextets.
    + destruct (sextets12_inj a b a' b') as [-> Hhigh]; auto with sextets.
      destruct (sextets34_inj b c b' c') as [-> ->]; auto with sextets.
      f_equal. f_equal. f_equal. apply IH; try assumption. cbn in Hlen. lia.
Qed.

Lemma encode_inj bs1 bs2 :
  is_bytes bs1 -> is_bytes bs2 ->
  Base64.encode bs1 = Base64.encode bs2 -> bs1 = bs2.
Proof. apply (encode_inj_upto (length bs1)). lia. Qed.

(** The UTF-8 encoding: bytes, and one string per byte sequence. *)
Lemma shiftr6 n : N.shiftr n 6 = (n / 64)%N.
Proof. rewrite N.shiftr_div_pow2. reflexivity. Qed.

Lemma land63 n : N.land n 63 = (n mod 64)%N.
Proof. change 63%N with (N.ones 6). rewrite N.land_ones. reflexivity. Qed.

Lemma utf8_is_bytes s : is_bytes (Base64.utf8 s).
Proof.
  unfold is_bytes. induction s as [| c s IH]; cbn; [constructor |].
  pose proof (N_ascii_bounded c) as Hc.
  destruct (N.ltb_spec (N_of_ascii c) 128).
  - constructor; [lia | exact IH].
  - rewrite shiftr6, land63.
    pose proof (N.mod_lt (N_of_ascii c) 64).
    assert (N_of_ascii c / 64 < 4)%N by (apply N.Div0.div_lt_upper_bound; lia).
    constructor; [lia |]. constructor; [lia | exact IH].
Qed.

Lemma N_of_ascii_inj c1 c2 : N_of_ascii c1 = N_of_ascii c2 -> c1 = c2.
Proof.
  intros H. rewrite <- (ascii_N_embedding c1), <- (ascii_N_embedding c2), H.
  reflexivity.
Qed.

Lemma utf8_inj s1 : forall s2, Base64.utf8 s1 = Base64.utf8 s2 -> s1 = s2.
Proof.
  induction s1 as [| c1 s1 IH]; intros [| c2 s2]; cbn.
  - reflexivity.
  - destruct (N_of_ascii c2 <? 128)%N; discriminate.
  - destruct (N_of_ascii c1 <? 128)%N; discriminate.
  - rewrite !shiftr6, !land63.
    destruct (N.ltb_spec (N_of_ascii c1) 128), (N.ltb_spec (N_of_ascii c2) 128);
      intros Heq.
    + injection Heq as Hhead Htail.
      f_equal; [apply N_of_ascii_inj, Hhead | apply IH, Htail].
    + exfalso. injection Heq as Hhead _.
      set (q := (N_of_ascii c2 / 64)%N) in *. clearbody q. lia.
    + exfalso. injection Heq as Hhead _.
      set (q := (N_of_ascii c1 / 64)%N) in *. clearbody q. lia.
    + injection Heq as Hhead Hlow Hrest.
      f_equal; [| apply IH, Hrest]. apply N_of_ascii_inj.
      rewrite (N.div_mod (N_of_ascii c1) 64), (N.div_mod (N_of_ascii c2) 64) by lia.
      assert (N_of_ascii c1 / 64 = N_of_ascii c2 / 64)%N as -> by
        (clear -Hhead; set (q1 := (N_of_ascii c1 / 64)%N) in *;
         set (q2 := (N_of_ascii c2 / 64)%N) in *; clearbody q1 q2; lia).
      assert (N_of_ascii c1 mod 64 = N_of_ascii c2 mod 64)%N as -> by
        (clear -Hlow; set (r1 := (N_of_ascii c1 mod 64)%N) in *;
         set (r2 := (N_of_ascii c2 mod 64)%N) in *; clearbody r1 r2; lia).
      reflexivity.
Qed.

Lemma substring_all n :
  forall s, (String.length s <= n)%nat -> substring 0 n s = s.
Proof.
  induction n as [| n IH]; intros [| c s] Hlen; cbn in *; try reflexivity;
    [lia |]. rewrite IH by lia. reflexivity.
Qed.

(** The first [4k] characters of an encoding encode the first [3k] bytes. *)
Lemma prefix_encode k :
  forall bs, prefix (4 * k) (Base64.encode bs) = Base64.encode (firstn (3 * k) bs).
Proof.
  unfold prefix. induction k as [| k IH]; intros bs.
  - cbn. destruct (Base64.encode bs); reflexivity.
  - replace (4 * S k)%nat with (S (S (S (S (4 * k))))) by lia.
    replace (3 * S k)%nat with (S (S (S (3 * k)))) by lia.
    destruct bs as [| a [| b [| c rest]]].
    + reflexivity.
    + rewrite firstn_all2 by (cbn; lia).
      apply substring_all. rewrite encode_one. cbn. lia.
    + rewrite firstn_all2 by (cbn; lia).
      apply substring_all. rewrite encode_two. cbn. lia.
    + rewrite encode_three. cbn [firstn]. rewrite encode_three.
      cbn [substring]. rewrite IH. reflexivity.
Qed.

Lemma length_encode_upto n :
  forall bs, (length bs <= n)%nat ->
    String.length (Base64.encode bs) = (4 * ((length bs + 2) / 3))%nat.
Proof.
  induction n as [| n IH]; intros bs Hlen.
  - destruct bs; [reflexivity | cbn in Hlen; lia].
  - destruct bs as [| a [| b [| c rest]]]; try reflexivity.
    rewrite encode_three. cbn [String.length length].
    rewrite IH by (cbn in Hlen; lia).
    replace (S (S (S (length rest))) + 2)%nat with (length rest + 2 + 1 * 3)%nat
      by lia.
    rewrite Nat.div_add by lia. lia.
Qed.

Lemma length_encode bs :
  String.length (Base64.encode bs) = (4 * ((length bs + 2) / 3))%nat.
Proof. apply (length_encode_upto (length bs)). lia. Qed.

Lemma length_append s1 s2 :
  String.length (s1 ++ s2) = (String.length s1 + String.length s2)%nat.
Proof.
  induction s1 as [| c s1 IH]; [reflexivity |].
  change (String c s1 ++ s2) with (String c (s1 ++ s2)).
  cbn [String.length]. rewrite IH. reflexivity.
Qed.

Lemma append_inj s x y : s ++ x = s ++ y -> x = y.
Proof.
  induction s as [| c s IH]; intros H; [exact H |].
  change (String c (s ++ x) = String c (s ++ y)) in H.
  injection H as H. exact (IH H).
Qed.

Lemma length_prefix n :
  forall s, String.length (prefix n s) = Nat.min n (String.length s).
Proof.
  unfold prefix. induction n as [| n IH]; intros [| c s]; cbn; try reflexivity.
  rewrite IH. reflexivity.
Qed.

Lemma cacheKey_eq_iff platform m1 m2 :
  cacheKey platform m1 = cacheKey platform m2
  <-> firstn 15 (Base64.utf8 m1) = firstn 15 (Base64.utf8 m2).
Proof.
  unfold cacheKey, Base64.of_string.
  rewrite !(prefix_encode 5). change (3 * 5)%nat with 15%nat.
  split.
  - intros H. do 3 apply append_inj in H.
    apply encode_inj in H; [exact H | |];
      apply Forall_take, utf8_is_bytes.
  - intros ->. reflexivity.
Qed.

(** X20: on one platform, two messages get the same cache key exactly when
    the first fifteen bytes of their UTF-8 encodings are the same. *)
Theorem cacheKey_collision platform m1 m2 :
  cacheKey platform m1 = cacheKey platform m2
  <-> firstn 15 (Base64.utf8 m1) = firstn 15 (Base64.utf8 m2).
Proof. apply cacheKey_eq_iff. Qed.

(** X21: messages of at most fifteen UTF-8 bytes that share a cache key on
    one platform have the same UTF-8 encoding; and for messages whose code
    units are all below 256 (the strings of this development, which hold no
    surrogate) the same encoding means the same message, so such messages
    never share a key. *)
Theorem cacheKey_short_messages platform m1 m2 :
  (length (Base64.utf8 m1) <= 15)%nat ->
  (length (Base64.utf8 m2) <= 15)%nat ->
  cacheKey platform m1 = cacheKey platform m2 ->
  Base64.utf8 m1 = Base64.utf8 m2 /\ m1 = m2.
Proof.
  intros H1 H2 Hkey. apply cacheKey_eq_iff in Hkey.
  rewrite !firstn_all2 in Hkey by assumption.
  split; [exact Hkey | apply utf8_inj, Hkey].
Qed.

(** X22: the key is short whatever the message: the platform, five
    characters of framing, and at most twenty of the encoding, four for
    every three bytes of the first fifteen. *)
Theorem cacheKey_length platform message :
  String.length (cacheKey platform message)
  = (4 + String.length platform
     + 4 * ((Nat.min 15 (length (Base64.utf8 message)) + 2) / 3))%nat
  /\ (String.length (cacheKey platform message) <= String.length platform + 24)%nat.
Proof.
  assert (String.length (cacheKey platform message)
          = (4 + String.length platform
             + 4 * ((Nat.min 15 (length (Base64.utf8 message)) + 2) / 3))%nat) as Hlen.
  { unfold cacheKey, Base64.of_string.
    rewrite (prefix_encode 5). change (3 * 5)%nat with 15%nat.
    rewrite !length_append, length_encode, length_firstn.
    cbn [String.length].
    generalize ((Nat.min 15 (length (Base64.utf8 message)) + 2) / 3)%nat.
    intros q. lia. }
  split; [exact Hlen |]. rewrite Hlen.
  assert ((Nat.min 15 (length (Base64.utf8 message)) + 2) / 3 < 6)%nat as Hq.
  { apply Nat.Div0.div_lt_upper_bound.
    pose proof (Nat.le_min_l 15 (length (Base64.utf8 message))). lia. }
  revert Hq.
  generalize ((Nat.min 15 (length (Base64.utf8 message)) + 2) / 3)%nat.
  intros q Hq. lia.
Qed.

(** X23: a key computed for the web never equals one computed for the chat
    client, so the two entry points never read each other's entries. *)
Theorem cacheKey_platforms_apart m1 m2 :
  cacheKey "web" m1 <> cacheKey "whatsapp" m2.
Proof.
  unfold cacheKey. intros H.
  change ("ai_" ++ "web" ++ "_" ++ prefix 20 (Base64.of_string m1))
    with (String "a" (String "i" (String "_" (String "w" (String "e"
            ("b" ++ "_" ++ prefix 20 (Base64.of_string m1))))))) in H.
  change ("ai_" ++ "whatsapp" ++ "_" ++ prefix 20 (Base64.of_string m2))
    with (String "a" (String "i" (String "_" (String "w" (String "h"
            ("atsapp" ++ "_" ++ prefix 20 (Base64.of_string m2))))))) in H.
  discriminate.
Qed.

Lemma cacheKey_collision_witness :
  cacheKey "web" "What is the capital of France?"
  = cacheKey "web" "What is the capital of Spain?".
Proof.
  apply (proj2 (cacheKey_collision "web" "What is the capital of France?"
                  "What is the capital of Spain?")).
  vm_compute. reflexivity.
Defined.

Lemma cacheKey_short_messages_witness :
  Base64.utf8 "hello" = Base64.utf8 "hello" /\ "hello" = "hello".
Proof.
  apply (cacheKey_short_messages "web" "hello" "hello").
  - vm_compute. lia.
  - vm_compute. lia.
  - reflexivity.
Defined.

(** ** GET /api/analytics *)

(** X24: after any sequence of requests since process start,
    GET /api/analytics reports as [totalUsers] the number of distinct senders
    of the chat-client messages that were not skipped, and as [botStatus]
    the status left by the last status event. *)
Theorem analytics_counts_senders cfg rs env :
  exists b,
    responses (run (getAnalytics env) (served cfg (initial_world cfg) rs)).2
    = [(200, b)]
    /\ field "totalUsers" b = JNum (Z.of_nat (size (senders rs)))
    /\ field "botStatus" b
       = JStr (botStatus_name (fold_left status_after rs initializing)).
Proof.
  unfold getAnalytics. exec. eexists. split; [reflexivity |]. cbn.
  rewrite served_users.
  destruct (served_status cfg rs (initial_world cfg)) as [-> _].
  cbn. rewrite (right_id_L ∅ (∪)). split; reflexivity.
Qed.

(** Two messages from one sender and one from another: two users. *)
Example analytics_two_senders :
  let env := sample_env (AxiosOk "Hi!") 1000 1001 in
  let from a := {| msg_from := a; msg_fromMe := false; msg_body := "hello" |} in
  field "totalUsers"
    (default []
       (snd <$> head (responses
          (run (getAnalytics env)
             (served config (initial_world config)
                [Setup; ClientReady;
                 ClientMessage (from "4915112345678@c.us") env;
                 ClientMessage (from "4915187654321@c.us") env;
                 ClientMessage (from "4915112345678@c.us") env;
                 ClientMessage (from "status@broadcast") env])).2)))
  = JNum 2.
Proof. vm_compute. reflexivity. Qed.
